(** * clavision-functions: access tokens, login states and the timetable

    A shallow embedding of [database.ts] (token hashing, token issue and
    verification, the login-state store, the timetable write) and of the
    [lineLoginCallback] handler of [index.ts], with the properties the
    specification states about them.

    Conventions.
    - A JavaScript string is a [string]: a sequence of code units, here
      restricted to the code units below 256.  Every literal of the program
      and every hex token fits.
    - A [Uint8Array] is a [list Z] whose elements are in [0, 256).
    - The Firestore collections are finite maps from document id to
      document ([gmap]); an [async] function is a function from the state
      of the world to the new state and either a value or the error thrown.
      Writes made before an error is thrown stay in the world. *)

From Stdlib Require Import ZArith Ascii String List Lia.
From stdpp Require Import base option list strings gmap fin_maps sorting.

Open Scope string_scope.
Open Scope Z_scope.

(** ** JavaScript primitives used by the program *)

Module JS.

(** [s.slice(b, e)] for non-negative [b <= e]: the code units from index
    [b] up to, not including, index [e], cut at the end of [s]. *)
Definition slice (s : string) (b e : nat) : string :=
  substring b (e - b) s.

(** White space and line terminators skipped by [parseInt], among the
    code units below 256: TAB, LF, VT, FF, CR, SP and NBSP. *)
Definition isWhiteSpace (c : ascii) : bool :=
  bool_decide (Z.of_nat (nat_of_ascii c) ∈ [9; 10; 11; 12; 13; 32; 160]).

Fixpoint trimStart (s : string) : string :=
  match s with
  | String c s' => if isWhiteSpace c then trimStart s' else s
  | EmptyString => EmptyString
  end.

(** Value of a radix-16 digit, upper or lower case. *)
Definition hexDigitValue (c : ascii) : option Z :=
  let n := Z.of_nat (nat_of_ascii c) in
  if bool_decide (48 ≤ n ≤ 57) then Some (n - 48)
  else if bool_decide (97 ≤ n ≤ 102) then Some (n - 87)
  else if bool_decide (65 ≤ n ≤ 70) then Some (n - 55)
  else None.

(** The longest prefix of radix-16 digits, as digit values. *)
Fixpoint digitsPrefix (s : string) : list Z :=
  match s with
  | String c s' =>
      match hexDigitValue c with
      | Some d => d :: digitsPrefix s'
      | None => []
      end
  | EmptyString => []
  end.

Definition stripSign (s : string) : Z * string :=
  match s with
  | String "-" r => (-1, r)
  | String "+" r => (1, r)
  | _ => (1, s)
  end.

Definition stripHexPrefix (s : string) : string :=
  match s with
  | String "0" (String "x" r) => r
  | String "0" (String "X" r) => r
  | _ => s
  end.

(** [Number.parseInt(s, 16)]; [None] is [NaN].  The result is the exact
    integer, which is what [parseInt] returns as long as it is below
    2^53 (the program only passes strings of at most two code units). *)
Definition parseInt16 (s : string) : option Z :=
  let '(sign, s1) := stripSign (trimStart s) in
  match digitsPrefix (stripHexPrefix s1) with
  | [] => None
  | ds => Some (sign * foldl (λ acc d, acc * 16 + d) 0 ds)
  end.

(** Storing a Number into a [Uint8Array] element: [NaN] becomes 0 and an
    integer is reduced modulo 256. *)
Definition ToUint8 (n : option Z) : Z :=
  match n with
  | None => 0
  | Some z => z mod 256
  end.

Definition hexChar (n : Z) : ascii :=
  match String.get (Z.to_nat n) "0123456789abcdef" with
  | Some c => c
  | None => "0"%char
  end.

(** [buffer.toString("hex")]: two lower-case digits per byte. *)
Fixpoint bytesToHex (bs : list Z) : string :=
  match bs with
  | [] => EmptyString
  | b :: bs' =>
      String (hexChar (b / 16)) (String (hexChar (b mod 16)) (bytesToHex bs'))
  end.

(** UTF-8 encoding of a string of code units below 256. *)
Fixpoint utf8 (s : string) : list Z :=
  match s with
  | EmptyString => []
  | String c s' =>
      let n := Z.of_nat (nat_of_ascii c) in
      if bool_decide (n < 128) then n :: utf8 s'
      else Z.lor 192 (Z.shiftr n 6) :: Z.lor 128 (Z.land n 63) :: utf8 s'
  end.

End JS.

(** ** External collaborators

    What the program calls and does not define: Node's crypto and URL
    classes, the clock, the LINE token endpoint, the JSON-web-token
    library and the HTTP client that downloads the profile image. *)

(** A value of TypeScript type [unknown], as far as [typeof v === "string"]
    can tell. *)
Inductive Unknown :=
  | UString (s : string)
  | UOther.

(** The payload handed to the callback of [jsonWebToken.verify]. *)
Record Decoded := mkDecoded {
  d_iss : Unknown;
  d_sub : Unknown;
  d_name : Unknown;
  d_picture : Unknown
}.

Class Platform := {
  (** [crypto.createHash("sha256").update(bytes).digest("hex")] *)
  sha256 : list Z → string;
  (** the [n]-th byte ever produced by [crypto.randomBytes] *)
  entropy : nat → Z;
  (** [new URL(text).toString()], [None] when the constructor throws *)
  newURL : string → option string;
  (** [functions.config()["line-login"]["channel-secret"]] *)
  lineLoginChannelSecret : string;
  (** [axios.post("https://api.line.me/oauth2/v2.1/token", form)]: the
      [id_token] of the answer, [None] when the request fails *)
  postLineToken : list (string * string) → option string;
  (** [jsonWebToken.verify(idToken, secret, {algorithms: ["HS256"]})]:
      the decoded payload, [None] when verification reports an error *)
  jwtVerify : string → string → option Decoded;
  (** [axios.get(url, {responseType: "arraybuffer"})]: the body and its
      content type, [None] when the request fails *)
  fetchImage : string → option (list Z * string)
}.

(** ** The timetable grid *)

Inductive Week :=
  | monday | tuesday | wednesday | thursday | friday | saturday.

Inductive Time :=
  | class1 | class2 | class3 | class4 | class5.

Global Instance Week_eq_dec : EqDecision Week.
Proof. solve_decision. Defined.

Global Instance Time_eq_dec : EqDecision Time.
Proof. solve_decision. Defined.

Definition allWeek : list Week :=
  [monday; tuesday; wednesday; thursday; friday; saturday].

Definition allTime : list Time :=
  [class1; class2; class3; class4; class5].

(** [ClassOfDay]: one field per period, [ClassId | null]. *)
Record ClassOfDay := mkClassOfDay {
  c_class1 : option string;
  c_class2 : option string;
  c_class3 : option string;
  c_class4 : option string;
  c_class5 : option string
}.

(** [ClassOfWeek]: one field per day. *)
Record ClassOfWeek := mkClassOfWeek {
  w_monday : ClassOfDay;
  w_tuesday : ClassOfDay;
  w_wednesday : ClassOfDay;
  w_thursday : ClassOfDay;
  w_friday : ClassOfDay;
  w_saturday : ClassOfDay
}.

(** [classOfDay[time]] *)
Definition getTime (time : Time) (d : ClassOfDay) : option string :=
  match time with
  | class1 => c_class1 d
  | class2 => c_class2 d
  | class3 => c_class3 d
  | class4 => c_class4 d
  | class5 => c_class5 d
  end.

(** [{ ...classOfDay, [time]: classId }] *)
Definition setTime (time : Time) (classId : option string) (d : ClassOfDay)
  : ClassOfDay :=
  match time with
  | class1 => mkClassOfDay classId (c_class2 d) (c_class3 d) (c_class4 d) (c_class5 d)
  | class2 => mkClassOfDay (c_class1 d) classId (c_class3 d) (c_class4 d) (c_class5 d)
  | class3 => mkClassOfDay (c_class1 d) (c_class2 d) classId (c_class4 d) (c_class5 d)
  | class4 => mkClassOfDay (c_class1 d) (c_class2 d) (c_class3 d) classId (c_class5 d)
  | class5 => mkClassOfDay (c_class1 d) (c_class2 d) (c_class3 d) (c_class4 d) classId
  end.

(** [classOfWeek[week]] *)
Definition getDay (week : Week) (g : ClassOfWeek) : ClassOfDay :=
  match week with
  | monday => w_monday g
  | tuesday => w_tuesday g
  | wednesday => w_wednesday g
  | thursday => w_thursday g
  | friday => w_friday g
  | saturday => w_saturday g
  end.

(** [{ ...classOfWeek, [week]: classOfDay }] *)
Definition setDay (week : Week) (d : ClassOfDay) (g : ClassOfWeek)
  : ClassOfWeek :=
  match week with
  | monday => mkClassOfWeek d (w_tuesday g) (w_wednesday g) (w_thursday g) (w_friday g) (w_saturday g)
  | tuesday => mkClassOfWeek (w_monday g) d (w_wednesday g) (w_thursday g) (w_friday g) (w_saturday g)
  | wednesday => mkClassOfWeek (w_monday g) (w_tuesday g) d (w_thursday g) (w_friday g) (w_saturday g)
  | thursday => mkClassOfWeek (w_monday g) (w_tuesday g) (w_wednesday g) d (w_friday g) (w_saturday g)
  | friday => mkClassOfWeek (w_monday g) (w_tuesday g) (w_wednesday g) (w_thursday g) d (w_saturday g)
  | saturday => mkClassOfWeek (w_monday g) (w_tuesday g) (w_wednesday g) (w_thursday g) (w_friday g) d
  end.

(** The cell of a day and period. *)
Definition cell (week : Week) (time : Time) (g : ClassOfWeek) : option string :=
  getTime time (getDay week g).

(** The grid with one cell overwritten: the object [setClass] returns, and
    the effect of its merge write on the stored grid. *)
Definition setCell (week : Week) (time : Time) (classId : option string)
    (g : ClassOfWeek) : ClassOfWeek :=
  setDay week (setTime time classId (getDay week g)) g.

(** All cells of a grid with their keys, day by day. *)
Definition cells (g : ClassOfWeek) : list (Week * Time * option string) :=
  week ← allWeek; time ← allTime; [(week, time, cell week time g)].

(** ** Documents and the state of the world *)

(** [UserData]; the field [classInTimeTable] is called [class] in the
    version of [database.ts] that [index.ts] was written against. *)
Record UserData := mkUserData {
  name : string;
  lineUserId : string;
  imageFileHash : string;
  lastIssuedAccessTokenHash : string;
  classInTimeTable : ClassOfWeek;
  createdAt : Z
}.

Record StateData := mkStateData {
  s_createdAt : Z
}.

Record Firestore := mkFirestore {
  user : gmap string UserData;
  lineLoginState : gmap string StateData
}.

(** One persisted write, by kind, collection and document id; the last is
    a file saved in the storage bucket. *)
Inductive Write :=
  | WCreate (collection id : string)
  | WUpdate (collection id : string)
  | WSetMerge (collection id : string)
  | WDelete (collection id : string)
  | WFileSave (hash : string).

Record World := mkWorld {
  firestore : Firestore;
  (** the default storage bucket: file name to content and content type *)
  bucket : gmap string (list Z * string);
  (** number of random bytes drawn so far *)
  drawn : nat;
  (** what [new Date()] reads *)
  clock : Z;
  (** every persisted write so far, oldest first *)
  journal : list Write
}.

Inductive Error :=
  (** [Error("他の端末でログインされたのでアクセストークンが無効になりました")] *)
  | InvalidAccessToken
  (** [Error(`userId ${id} dose not exits`)] *)
  | UserDoseNotExits (id : string)
  (** Firestore rejects [create] on a document that exists *)
  | AlreadyExists (collection id : string)
  (** Firestore rejects [update] on a document that does not exist *)
  | NotFound (collection id : string)
  (** an [axios] request rejects *)
  | RequestFailed
  (** [reject("token invalid!")] *)
  | TokenInvalid
  (** [reject("token data is invalid!")] *)
  | TokenDataInvalid
  (** [TypeError] of [new URL] *)
  | InvalidURL
  (** outside this model: a merge write to a user document that does not
      exist would create a document that holds the written cell only, which
      is not a [UserData] *)
  | PartialUserDocument (id : string).

Inductive Result (A : Type) :=
  | Ok (a : A)
  | Throw (e : Error).
Arguments Ok {A} a.
Arguments Throw {A} e.

(** An [async] function returning [Promise<A>]. *)
Definition Async (A : Type) : Type := World → World * Result A.

Global Instance Async_ret : MRet Async := λ A a w, (w, Ok a).

Global Instance Async_bind : MBind Async := λ A B f m w,
  match m w with
  | (w', Ok a) => f a w'
  | (w', Throw e) => (w', Throw e)
  end.

Definition throw {A} (e : Error) : Async A := λ w, (w, Throw e).

Definition getWorld : Async World := λ w, (w, Ok w).

Definition putFirestore (fs : Firestore) : Async unit := λ w,
  (mkWorld fs (bucket w) (drawn w) (clock w) (journal w), Ok ()).

Definition logWrite (wr : Write) : Async unit := λ w,
  (mkWorld (firestore w) (bucket w) (drawn w) (clock w) (journal w ++ [wr]),
   Ok ()).

(** [crypto.randomBytes(n)] *)
Definition randomBytes `{Platform} (n : nat) : Async (list Z) := λ w,
  (mkWorld (firestore w) (bucket w) (drawn w + n) (clock w) (journal w),
   Ok ((λ i, entropy (drawn w + i) mod 256) <$> seq 0 n)).

(** [admin.firestore.Timestamp.fromDate(new Date())] *)
Definition now : Async Z := λ w, (w, Ok (clock w)).

(** [storageDefaultBucket.file(hash).save(buffer, { contentType })] *)
Definition fileSave (hash : string) (buffer : list Z) (mimeType : string)
  : Async unit := λ w,
  (mkWorld (firestore w) (<[hash := (buffer, mimeType)]> (bucket w))
     (drawn w) (clock w) (journal w ++ [WFileSave hash]),
   Ok ()).

(** The documents a query returns come in the order of their ids. *)
Definition byId {A} (a b : string * A) : Prop := String.le a.1 b.1.

Global Instance byId_dec {A} (a b : string * A) : Decision (byId a b).
Proof. unfold byId. apply _. Defined.

(** [collection("user").where(field, "==", value).get()).docs] *)
Definition whereEq (field : UserData → string) (value : string)
    (users : gmap string UserData) : list (string * UserData) :=
  merge_sort byId
    (filter (λ doc, field doc.2 = value) (map_to_list users)).

(** ** [database.ts] *)

Section Database.
Context `{Platform}.

(** [database.collection("lineLoginState").doc(id).create(data)] *)
Definition createLineLoginState (id : string) (data : StateData)
  : Async unit := λ w,
  match lineLoginState (firestore w) !! id with
  | Some _ => (w, Throw (AlreadyExists "lineLoginState" id))
  | None =>
      (mkWorld
         (mkFirestore (user (firestore w))
            (<[id := data]> (lineLoginState (firestore w))))
         (bucket w) (drawn w) (clock w)
         (journal w ++ [WCreate "lineLoginState" id]),
       Ok ())
  end.

(** [database.collection("lineLoginState").doc(id).delete()] *)
Definition deleteLineLoginState (id : string) : Async unit := λ w,
  (mkWorld
     (mkFirestore (user (firestore w))
        (delete id (lineLoginState (firestore w))))
     (bucket w) (drawn w) (clock w)
     (journal w ++ [WDelete "lineLoginState" id]),
   Ok ()).

(** [(await database.collection("lineLoginState").doc(id).get()).data()] *)
Definition getLineLoginState (id : string) : Async (option StateData) :=
  λ w, (w, Ok (lineLoginState (firestore w) !! id)).

(** [(await database.collection("user").doc(id).get()).data()] *)
Definition getUserDoc (id : string) : Async (option UserData) :=
  λ w, (w, Ok (user (firestore w) !! id)).

(** [database.collection("user").doc(id).create(data)] *)
Definition createUserDoc (id : string) (data : UserData) : Async unit :=
  λ w,
  match user (firestore w) !! id with
  | Some _ => (w, Throw (AlreadyExists "user" id))
  | None =>
      (mkWorld
         (mkFirestore (<[id := data]> (user (firestore w)))
            (lineLoginState (firestore w)))
         (bucket w) (drawn w) (clock w)
         (journal w ++ [WCreate "user" id]),
       Ok ())
  end.

(** [database.collection("user").doc(id).update({
      lastIssuedAccessTokenHash: hash })] *)
Definition updateUserTokenHash (id hash : string) : Async unit := λ w,
  match user (firestore w) !! id with
  | None => (w, Throw (NotFound "user" id))
  | Some u =>
      (mkWorld
         (mkFirestore
            (<[id := mkUserData (name u) (lineUserId u) (imageFileHash u)
                       hash (classInTimeTable u) (createdAt u)]>
               (user (firestore w)))
            (lineLoginState (firestore w)))
         (bucket w) (drawn w) (clock w)
         (journal w ++ [WUpdate "user" id]),
       Ok ())
  end.

(** [database.collection("user").doc(id).set(
      { classInTimeTable: { [week]: { [time]: classId } } },
      { merge: true })]: the named cell is written, every other field of the
    document is kept. *)
Definition mergeUserClass (id : string) (week : Week) (time : Time)
    (classId : option string) : Async unit := λ w,
  match user (firestore w) !! id with
  | None => (w, Throw (PartialUserDocument id))
  | Some u =>
      (mkWorld
         (mkFirestore
            (<[id := mkUserData (name u) (lineUserId u) (imageFileHash u)
                       (lastIssuedAccessTokenHash u)
                       (setCell week time classId (classInTimeTable u))
                       (createdAt u)]>
               (user (firestore w)))
            (lineLoginState (firestore w)))
         (bucket w) (drawn w) (clock w)
         (journal w ++ [WSetMerge "user" id]),
       Ok ())
  end.

(** [collection("user").where(field, "==", value).get()] *)
Definition queryUser (field : UserData → string) (value : string)
  : Async (list (string * UserData)) :=
  λ w, (w, Ok (whereEq field value (user (firestore w)))).

Definition createRandomId : Async string :=
  bytes ← randomBytes 16;
  mret (JS.bytesToHex bytes).

Definition generateAndWriteLineLoginState : Async string :=
  state ← createRandomId;
  createdAt ← now;
  _ ← createLineLoginState state (mkStateData createdAt);
  mret state.

Definition checkExistsAndDeleteState (state : string) : Async bool :=
  data ← getLineLoginState state;
  match data with
  | Some _ =>
      _ ← deleteLineLoginState state;
      mret true
  | None => mret false
  end.

(** [UserOutType]: [classInTimeTable], [imageFileHash] and [name] of
    [UserData], and the [id]. *)
Record UserOutType := mkUserOut {
  o_id : string;
  o_name : string;
  o_imageFileHash : string;
  o_classInTimeTable : ClassOfWeek
}.

(** [getUser] returns [{ name, classInTimeTable, imageFileHash }]. *)
Definition getUser (id : string) : Async (string * ClassOfWeek * string) :=
  data ← getUserDoc id;
  match data with
  | None => throw (UserDoseNotExits id)
  | Some data =>
      mret (name data, classInTimeTable data, imageFileHash data)
  end.

Definition getUserFromLineAccountId (lineUserId' : string)
  : Async (option (string * UserData)) :=
  docs ← queryUser lineUserId lineUserId';
  mret (head docs).

Definition createHashFromBuffer (data : list Z) (mimeType : string)
  : string :=
  sha256 (data ++ JS.utf8 mimeType).

Definition createAccessToken : Async string :=
  bytes ← randomBytes 24;
  mret (JS.bytesToHex bytes).

(** The loop of [accessTokenToTypedArray]: a fresh [Uint8Array(24)] is all
    zeros; step [i] stores [parseInt(accessToken.slice(i, i + 2), 16)] at
    index [i]. *)
Definition accessTokenToTypedArray (accessToken : string) : list Z :=
  foldl
    (λ binary i,
       <[i := JS.ToUint8 (JS.parseInt16 (JS.slice accessToken i (i + 2)))]>
         binary)
    (replicate 24 0)
    (seq 0 24).

Definition hashAccessToken (accessToken : string) : string :=
  sha256 (accessTokenToTypedArray accessToken).

Definition saveFile (buffer : list Z) (mimeType : string) : Async string :=
  let hash := createHashFromBuffer buffer mimeType in
  _ ← fileSave hash buffer mimeType;
  mret hash.

Definition saveUserImageFromUrl (url : string) : Async string :=
  match fetchImage url with
  | None => throw RequestFailed
  | Some (data, mimeType) => saveFile data mimeType
  end.

Definition emptyDay : ClassOfDay := mkClassOfDay None None None None None.

Definition createUser (name' imageUrl lineUserId' : string) : Async string :=
  userId ← createRandomId;
  imageFileHash' ← saveUserImageFromUrl imageUrl;
  accessToken ← createAccessToken;
  createdAt' ← now;
  _ ← createUserDoc userId
        (mkUserData name' lineUserId' imageFileHash'
           (hashAccessToken accessToken)
           (mkClassOfWeek emptyDay emptyDay emptyDay emptyDay emptyDay
              emptyDay)
           createdAt');
  mret accessToken.

Definition updateAccessToken (userId : string) : Async string :=
  newAccessToken ← createAccessToken;
  _ ← updateUserTokenHash userId (hashAccessToken newAccessToken);
  mret newAccessToken.

Definition verifyAccessTokenAndGetUserData (accessToken : string)
  : Async UserOutType :=
  let accessTokenHash := hashAccessToken accessToken in
  docs ← queryUser lastIssuedAccessTokenHash accessTokenHash;
  match head docs with
  | None => throw InvalidAccessToken
  | Some (id, data) =>
      mret (mkUserOut id (name data) (imageFileHash data)
              (classInTimeTable data))
  end.

Definition setClass (accessToken : string) (week : Week) (time : Time)
    (classId : option string) : Async UserOutType :=
  userData ← verifyAccessTokenAndGetUserData accessToken;
  _ ← mergeUserClass (o_id userData) week time classId;
  mret (mkUserOut (o_id userData) (o_name userData)
          (o_imageFileHash userData)
          (setDay week
             (setTime time classId (getDay week (o_classInTimeTable userData)))
             (o_classInTimeTable userData))).

End Database.

(** ** [data.ts] *)

Module Data.

(** Characters [encodeURIComponent] leaves as they are. *)
Definition isUnreserved (c : ascii) : bool :=
  let n := Z.of_nat (nat_of_ascii c) in
  bool_decide (48 ≤ n ≤ 57) || bool_decide (65 ≤ n ≤ 90)
  || bool_decide (97 ≤ n ≤ 122)
  || bool_decide (n ∈ [45; 95; 46; 33; 126; 42; 39; 40; 41]).

Definition hexCharUpper (n : Z) : ascii :=
  match String.get (Z.to_nat n) "0123456789ABCDEF" with
  | Some c => c
  | None => "0"%char
  end.

Definition percent (b : Z) : string :=
  String "%" (String (hexCharUpper (b / 16))
    (String (hexCharUpper (b mod 16)) EmptyString)).

(** [encodeURIComponent] on code units below 256. *)
Fixpoint encodeURIComponent (text : string) : string :=
  match text with
  | EmptyString => EmptyString
  | String c rest =>
      (if isUnreserved c then String c EmptyString
       else String.concat "" (percent <$> JS.utf8 (String c EmptyString)))
      +:+ encodeURIComponent rest
  end.

(** [text.replace(/c/g, by)] for a one-character pattern. *)
Fixpoint replaceAll (c : ascii) (by' : string) (text : string) : string :=
  match text with
  | EmptyString => EmptyString
  | String c' rest =>
      (if decide (c' = c) then by' else String c' EmptyString)
      +:+ replaceAll c by' rest
  end.

Definition encodeURIComponentRFC3986 (text : string) : string :=
  replaceAll ")" "%29"
    (replaceAll "(" "%28"
       (replaceAll "'" "%27"
          (replaceAll "*" "%2A"
             (replaceAll "!" "%21" (encodeURIComponent text))))).

(** A [Map<string, string>] is the list of its entries in insertion
    order. *)
Definition mapToUrlEncodeMap (map : list (string * string)) : string :=
  String.concat "&"
    ((λ '(key, value),
        encodeURIComponentRFC3986 key +:+ "=" +:+
        encodeURIComponentRFC3986 value) <$> map).

(** The text [urlFrom] hands to [new URL]. *)
Definition urlText (hostName : string) (path : list string)
    (query fragment : list (string * string)) : string :=
  "https://" +:+ hostName +:+
  (if decide (length path = 0%nat) then ""
   else "/" +:+ String.concat "/" (encodeURIComponent <$> path)) +:+
  (if decide (length query = 0%nat) then ""
   else "?" +:+ mapToUrlEncodeMap query) +:+
  (if decide (length fragment = 0%nat) then ""
   else "#" +:+ mapToUrlEncodeMap fragment).

(** [urlFrom(...)]: the URL, by its [toString()]. *)
Definition urlFrom `{Platform} (hostName : string) (path : list string)
    (query fragment : list (string * string)) : Async string :=
  match newURL (urlText hostName path query fragment) with
  | Some url => mret url
  | None => throw InvalidURL
  end.

Definition appHostName : string := "clavision.web.app".

Definition appHttpsSchemeAndHostName : string := "https://" +:+ appHostName.

Definition lineLoginRedirectUri : string :=
  "https://us-central1-clavision.cloudfunctions.net/lineLoginCallback".

Definition lineLoginClientId : string := "1653666685".

End Data.

(** ** [index.ts]: the callback of the LINE login *)

(** What the handler does with the [response]. *)
Inductive Response :=
  (** [response.redirect(location)] *)
  | Redirect (location : string)
  (** [response.status(status).send(body)] *)
  | StatusSend (status : Z) (body : string).

Record LineData := mkLineData {
  l_sub : string;
  l_name : string;
  l_picture : string
}.

Section Index.
Context `{Platform}.

Definition createAccessTokenUrl (accessToken : string) : Async string :=
  Data.urlFrom Data.appHostName [] [] [("accessToken", accessToken)].

(** [verifyAccessTokenAndGetData] of [index.ts]: checks the id token LINE
    issued and reads the user's data from it. *)
Definition verifyAccessTokenAndGetData (idToken : string) : Async LineData :=
  match jwtVerify idToken lineLoginChannelSecret with
  | None => throw TokenInvalid
  | Some decodedData =>
      match d_iss decodedData, d_name decodedData, d_sub decodedData,
            d_picture decodedData with
      | UString iss, UString name', UString sub, UString picture =>
          if decide (iss = "https://access.line.me") then
            match newURL picture with
            | Some url => mret (mkLineData sub name' url)
            | None => throw InvalidURL
            end
          else throw TokenDataInvalid
      | _, _, _, _ => throw TokenDataInvalid
      end
  end.

(** The request to [https://api.line.me/oauth2/v2.1/token]. *)
Definition requestIdToken (code : string) : Async string :=
  match postLineToken
          [("grant_type", "authorization_code");
           ("code", code);
           ("redirect_uri", Data.lineLoginRedirectUri);
           ("client_id", Data.lineLoginClientId);
           ("client_secret", lineLoginChannelSecret)] with
  | Some idToken => mret idToken
  | None => throw RequestFailed
  end.

(** The handler, from [request.query.code] and [request.query.state].  A
    [Throw] is a rejection of the handler: no response is sent. *)
Definition lineLoginCallback (code state : Unknown) : Async Response :=
  match code, state with
  | UString code, UString state =>
      known ← checkExistsAndDeleteState state;
      if negb known then
        mret (StatusSend 400
                ("LINE LogIn Error: Definy dose not generate state ("
                 +:+ state +:+ ")"))
      else
        idToken ← requestIdToken code;
        lineData ← verifyAccessTokenAndGetData idToken;
        userData ← getUserFromLineAccountId (l_sub lineData);
        match userData with
        | None =>
            accessToken ← createUser (l_name lineData) (l_picture lineData)
                            (l_sub lineData);
            url ← createAccessTokenUrl accessToken;
            mret (Redirect url)
        | Some (id, _) =>
            accessToken ← updateAccessToken id;
            url ← createAccessTokenUrl accessToken;
            mret (Redirect url)
        end
  | _, _ => mret (Redirect Data.appHttpsSchemeAndHostName)
  end.

End Index.

(** ** Vocabulary of the statements *)

(** The user document after a write of the token hash only. *)
Definition withTokenHash (hash : string) (u : UserData) : UserData :=
  mkUserData (name u) (lineUserId u) (imageFileHash u) hash
    (classInTimeTable u) (createdAt u).

(** What a session shows of a user document. *)
Definition userOut (id : string) (u : UserData) : UserOutType :=
  mkUserOut id (name u) (imageFileHash u) (classInTimeTable u).

(** The user document after a merge write of one timetable cell. *)
Definition withCell (week : Week) (time : Time) (classId : option string)
    (u : UserData) : UserData :=
  mkUserData (name u) (lineUserId u) (imageFileHash u)
    (lastIssuedAccessTokenHash u)
    (setCell week time classId (classInTimeTable u)) (createdAt u).

(** The calls the outside world can make, in any order: the functions
    [database.ts] exports that write, and the login callback. *)
Inductive Call :=
  | CallGenerateState
  | CallCheckState (state : string)
  | CallCreateUser (name' imageUrl lineUserId' : string)
  | CallUpdateAccessToken (userId : string)
  | CallSetClass (accessToken : string) (week : Week) (time : Time)
      (classId : option string)
  | CallLoginCallback (code state : Unknown).

(** One call: the world after it, and the login state it issued, if any. *)
Definition runCall `{Platform} (c : Call) (w : World)
  : World * option string :=
  match c with
  | CallGenerateState =>
      match generateAndWriteLineLoginState w with
      | (w', Ok state) => (w', Some state)
      | (w', Throw _) => (w', None)
      end
  | CallCheckState state => ((checkExistsAndDeleteState state w).1, None)
  | CallCreateUser name' imageUrl lineUserId' =>
      ((createUser name' imageUrl lineUserId' w).1, None)
  | CallUpdateAccessToken userId => ((updateAccessToken userId w).1, None)
  | CallSetClass accessToken week time classId =>
      ((setClass accessToken week time classId w).1, None)
  | CallLoginCallback code state => ((lineLoginCallback code state w).1, None)
  end.

(** A sequence of calls: the world after them and the login states issued
    on the way. *)
Fixpoint runCalls `{Platform} (cs : list Call) (w : World)
  : World * list string :=
  match cs with
  | [] => (w, [])
  | c :: cs' =>
      let '(w1, issued) := runCall c w in
      let '(w2, more) := runCalls cs' w1 in
      (w2, (option_list issued ++ more)%list)
  end.

(** An operation that adds no login state: every login state stored after
    it was stored before it. *)
Definition addsNoState {A} (m : Async A) : Prop :=
  ∀ w, lineLoginState (firestore (m w).1) ⊆ lineLoginState (firestore w).

(** The body of the answer to a callback whose state is not stored. *)
Definition unknownStateBody (state : string) : string :=
  "LINE LogIn Error: Definy dose not generate state (" +:+ state +:+ ")".

(** ** A test double of the platform and sample worlds

    Used to run the definitions on concrete inputs.  The digest is replaced
    by the hex text of its input, which is injective; the random bytes count
    upwards. *)

Module Sample.

#[local] Instance platform : Platform := {|
  sha256 := JS.bytesToHex;
  entropy := λ n, Z.of_nat n * 7 + 3;
  newURL := λ text, Some text;
  lineLoginChannelSecret := "channel-secret";
  postLineToken := λ form, Some "id-token";
  jwtVerify := λ idToken secret,
    Some (mkDecoded (UString "https://access.line.me") (UString "U1234")
            (UString "Hanako") (UString "https://profile.line.me/p.png"));
  fetchImage := λ url, Some ([137; 80; 78; 71], "image/png")
|}.

Definition tokenA : string :=
  "00112233445566778899aabbccddeeff0011223344556677".

(** Agrees with [tokenA] on its first 25 characters only. *)
Definition tokenB : string :=
  "00112233445566778899aabbcfffffffffffffffffffffff".

Definition tokenC : string :=
  "ffeeddccbbaa99887766554433221100ffeeddccbbaa9988".

Definition grid0 : ClassOfWeek :=
  mkClassOfWeek emptyDay
    (mkClassOfDay None (Some "class-algebra") None None None)
    emptyDay emptyDay emptyDay
    (mkClassOfDay None None None None (Some "class-physics")).

Definition alice : UserData :=
  mkUserData "Alice" "U-alice" "hash-of-alice-image"
    (hashAccessToken tokenA) grid0 1000.

Definition bob : UserData :=
  mkUserData "Bob" "U-bob" "hash-of-bob-image"
    (hashAccessToken tokenC)
    (mkClassOfWeek emptyDay emptyDay emptyDay emptyDay emptyDay emptyDay)
    1001.

Definition world0 : World :=
  mkWorld
    (mkFirestore
       (<["user-alice" := alice]> (<["user-bob" := bob]> ∅))
       (<["state-1" := mkStateData 999]> ∅))
    ∅ 0 2000 [].

(** The bytes whose hex text is [tokenB]. *)
Definition bytesB : list Z :=
  [0; 17; 34; 51; 68; 85; 102; 119; 136; 153; 170; 187; 207; 255; 255; 255;
   255; 255; 255; 255; 255; 255; 255; 255].

(** The same platform, except that the next 24 random bytes are
    [bytesB]. *)
Definition platformB : Platform := {|
  sha256 := JS.bytesToHex;
  entropy := λ n, nth n bytesB 0;
  newURL := λ text, Some text;
  lineLoginChannelSecret := "channel-secret";
  postLineToken := λ form, Some "id-token";
  jwtVerify := λ idToken secret, None;
  fetchImage := λ url, None
|}.

End Sample.

(** ** [schema.ts]: file hashes and the login URL *)

(** The errors [parseFileHash] throws. *)
Inductive HashError :=
  (** [Error("Hash must be string")] *)
  | HashMustBeString
  (** [Error("Hash length must be 64")] *)
  | HashLengthMustBe64
  (** [Error("Hash char must match /[0-9a-f]/")] *)
  | HashCharMustMatch.

(** ["0123456789abcdef".includes(char)] for one character. *)
Definition isLowerHexChar (char : ascii) : bool :=
  bool_decide (char ∈ list_ascii_of_string "0123456789abcdef").

(** The loop [for (const char of value)]: the first character that is not
    a lower-case hex digit throws. *)
Fixpoint allLowerHex (value : string) : bool :=
  match value with
  | EmptyString => true
  | String char rest => if isLowerHexChar char then allLowerHex rest else false
  end.

Definition parseFileHash (value : Unknown) : HashError + string :=
  match value with
  | UOther => inl HashMustBeString
  | UString value =>
      if decide (String.length value ≠ 64%nat) then inl HashLengthMustBe64
      else if allLowerHex value then inr value
      else inl HashCharMustMatch
  end.

Section Schema.
Context `{Platform}.

(** The resolver of the mutation [getLineLoginUrl]. *)
Definition getLineLoginUrl : Async string :=
  state ← generateAndWriteLineLoginState;
  Data.urlFrom "access.line.me" ["oauth2"; "v2.1"; "authorize"]
    [("response_type", "code");
     ("client_id", Data.lineLoginClientId);
     ("redirect_uri", Data.lineLoginRedirectUri);
     ("scope", "profile openid");
     ("state", state)]
    [].

End Schema.

(** ** [index.ts]: the file endpoint *)

(** What the [file] handler does with the [response] after setting the
    headers. *)
Inductive FileAnswer :=
  (** [response.status(status).send(body)] *)
  | FileSend (status : Z) (body : string)
  (** [getReadableStream(fileHash).pipe(response)]: the bytes of the file
      of that name, [None] when the bucket has no such file *)
  | FilePipe (fileHash : string) (content : option (list Z))
  (** [parseFileHash] threw *)
  | FileThrow (e : HashError).

(** [database.getReadableStream(fileHash)], by what the stream reads. *)
Definition getReadableStream (fileHash : string) (w : World)
  : option (list Z) :=
  fst <$> bucket w !! fileHash.

(** The handler of [file], from [request.method] and [request.path]: the
    headers it sets, in order, and its answer. *)
Definition file (method path : string) (w : World)
  : list (string * string) * FileAnswer :=
  let headers :=
    [("access-control-allow-origin", Data.appHttpsSchemeAndHostName);
     ("vary", "Origin")] in
  if decide (method = "OPTIONS") then
    ((headers ++
      [("access-control-allow-methods", "POST, GET, OPTIONS");
       ("access-control-allow-headers", "content-type")])%list,
     FileSend 200 "")
  else if decide (method = "GET") then
    ((headers ++ [("cache-control", "public, max-age=31536000")])%list,
     match parseFileHash (UString (JS.slice path 1 (String.length path))) with
     | inr fileHash => FilePipe fileHash (getReadableStream fileHash w)
     | inl e => FileThrow e
     end)
  else (headers, FileSend 400 "invalid file parameter").

(** ** [database.ts]: rooms and classes

    The collections [class] and [room] hold reference data that the
    functions below only read; they are kept apart from the [World]. *)

Record WeekAndTime := mkWeekAndTime {
  wt_week : Week;
  wt_time : Time
}.

Record ClassData := mkClassData {
  cd_name : string;
  cd_teacher : string;
  cd_room : string;
  cd_weekAndTime : WeekAndTime
}.

Record RoomData := mkRoomData {
  rd_name : string
}.

Record Reference := mkReference {
  classCollection : gmap string ClassData;
  roomCollection : gmap string RoomData
}.

(** The errors the readers throw. *)
Inductive ReferenceError :=
  (** [Error(`roomId ${id} dose not exists`)] *)
  | RoomDoseNotExists (id : string)
  (** [Error(`classId ${id} dose not exists`)] *)
  | ClassDoseNotExists (id : string).

(** [(await collection.get()).docs]: all documents in the order of their
    ids. *)
Definition allDocs {A} (collection : gmap string A) : list (string * A) :=
  merge_sort byId (map_to_list collection).

Definition getRoomData (id : string) (r : Reference)
  : ReferenceError + RoomData :=
  match roomCollection r !! id with
  | None => inl (RoomDoseNotExists id)
  | Some data => inr data
  end.

(** Each entry is [{ id, name }]. *)
Definition getAllRoomData (r : Reference) : list (string * string) :=
  (λ doc, (doc.1, rd_name doc.2)) <$> allDocs (roomCollection r).

(** What [getClassData] returns and [getAllClassData] lists:
    [{ id, name, teacher, room: { id }, weekAndTime }]; [getClassData]
    leaves the [id] out. *)
Record ClassOut := mkClassOut {
  co_name : string;
  co_teacher : string;
  co_room_id : string;
  co_weekAndTime : WeekAndTime
}.

Definition classOut (data : ClassData) : ClassOut :=
  mkClassOut (cd_name data) (cd_teacher data) (cd_room data)
    (cd_weekAndTime data).

Definition getClassData (id : string) (r : Reference)
  : ReferenceError + ClassOut :=
  match classCollection r !! id with
  | None => inl (ClassDoseNotExists id)
  | Some data => inr (classOut data)
  end.

Definition getAllClassData (r : Reference) : list (string * ClassOut) :=
  (λ doc, (doc.1, classOut doc.2)) <$> allDocs (classCollection r).

(** ** [database.ts], later version: sessions that list class references

    In this version a session and [getUser] show every cell as
    [{ id: ClassId } | null]; what is stored stays [ClassId | null]. *)

Module V2.

(** [{ id: ClassId }] *)
Record ClassRef := mkClassRef {
  ref_id : string
}.

Record ClassOfDayOutType := mkClassOfDayOut {
  r_class1 : option ClassRef;
  r_class2 : option ClassRef;
  r_class3 : option ClassRef;
  r_class4 : option ClassRef;
  r_class5 : option ClassRef
}.

Record ClassOfWeekOutType := mkClassOfWeekOut {
  r_monday : ClassOfDayOutType;
  r_tuesday : ClassOfDayOutType;
  r_wednesday : ClassOfDayOutType;
  r_thursday : ClassOfDayOutType;
  r_friday : ClassOfDayOutType;
  r_saturday : ClassOfDayOutType
}.

Definition classIdMaybeToClassOutTypeMaybe (classId : option string)
  : option ClassRef :=
  match classId with
  | None => None
  | Some classId => Some (mkClassRef classId)
  end.

Definition classOfDayToOutType (classOfDay : ClassOfDay)
  : ClassOfDayOutType :=
  mkClassOfDayOut
    (classIdMaybeToClassOutTypeMaybe (c_class1 classOfDay))
    (classIdMaybeToClassOutTypeMaybe (c_class2 classOfDay))
    (classIdMaybeToClassOutTypeMaybe (c_class3 classOfDay))
    (classIdMaybeToClassOutTypeMaybe (c_class4 classOfDay))
    (classIdMaybeToClassOutTypeMaybe (c_class5 classOfDay)).

Definition classOfWeekToOutType (classOfWeek : ClassOfWeek)
  : ClassOfWeekOutType :=
  mkClassOfWeekOut
    (classOfDayToOutType (w_monday classOfWeek))
    (classOfDayToOutType (w_tuesday classOfWeek))
    (classOfDayToOutType (w_wednesday classOfWeek))
    (classOfDayToOutType (w_thursday classOfWeek))
    (classOfDayToOutType (w_friday classOfWeek))
    (classOfDayToOutType (w_saturday classOfWeek)).

(** [classOfDay[time]] *)
Definition getTime (time : Time) (d : ClassOfDayOutType) : option ClassRef :=
  match time with
  | class1 => r_class1 d
  | class2 => r_class2 d
  | class3 => r_class3 d
  | class4 => r_class4 d
  | class5 => r_class5 d
  end.

(** [{ ...classOfDay, [time]: classRef }] *)
Definition setTime (time : Time) (classRef : option ClassRef)
    (d : ClassOfDayOutType) : ClassOfDayOutType :=
  match time with
  | class1 => mkClassOfDayOut classRef (r_class2 d) (r_class3 d) (r_class4 d) (r_class5 d)
  | class2 => mkClassOfDayOut (r_class1 d) classRef (r_class3 d) (r_class4 d) (r_class5 d)
  | class3 => mkClassOfDayOut (r_class1 d) (r_class2 d) classRef (r_class4 d) (r_class5 d)
  | class4 => mkClassOfDayOut (r_class1 d) (r_class2 d) (r_class3 d) classRef (r_class5 d)
  | class5 => mkClassOfDayOut (r_class1 d) (r_class2 d) (r_class3 d) (r_class4 d) classRef
  end.

(** [classOfWeek[week]] *)
Definition getDay (week : Week) (g : ClassOfWeekOutType) : ClassOfDayOutType :=
  match week with
  | monday => r_monday g
  | tuesday => r_tuesday g
  | wednesday => r_wednesday g
  | thursday => r_thursday g
  | friday => r_friday g
  | saturday => r_saturday g
  end.

(** [{ ...classOfWeek, [week]: classOfDay }] *)
Definition setDay (week : Week) (d : ClassOfDayOutType)
    (g : ClassOfWeekOutType) : ClassOfWeekOutType :=
  match week with
  | monday => mkClassOfWeekOut d (r_tuesday g) (r_wednesday g) (r_thursday g) (r_friday g) (r_saturday g)
  | tuesday => mkClassOfWeekOut (r_monday g) d (r_wednesday g) (r_thursday g) (r_friday g) (r_saturday g)
  | wednesday => mkClassOfWeekOut (r_monday g) (r_tuesday g) d (r_thursday g) (r_friday g) (r_saturday g)
  | thursday => mkClassOfWeekOut (r_monday g) (r_tuesday g) (r_wednesday g) d (r_friday g) (r_saturday g)
  | friday => mkClassOfWeekOut (r_monday g) (r_tuesday g) (r_wednesday g) (r_thursday g) d (r_saturday g)
  | saturday => mkClassOfWeekOut (r_monday g) (r_tuesday g) (r_wednesday g) (r_thursday g) (r_friday g) d
  end.

Record UserOutType := mkUserOut {
  o_id : string;
  o_name : string;
  o_imageFileHash : string;
  o_classInTimeTable : ClassOfWeekOutType
}.

Section Database.
Context `{Platform}.

(** [getUser] returns [{ name, classInTimeTable, imageFileHash }]. *)
Definition getUser (id : string)
  : Async (string * ClassOfWeekOutType * string) :=
  data ← getUserDoc id;
  match data with
  | None => throw (UserDoseNotExits id)
  | Some data =>
      mret (name data, classOfWeekToOutType (classInTimeTable data),
            imageFileHash data)
  end.

Definition verifyAccessTokenAndGetUserData (accessToken : string)
  : Async UserOutType :=
  let accessTokenHash := hashAccessToken accessToken in
  docs ← queryUser lastIssuedAccessTokenHash accessTokenHash;
  match head docs with
  | None => throw InvalidAccessToken
  | Some (id, data) =>
      mret (mkUserOut id (name data) (imageFileHash data)
              (classOfWeekToOutType (classInTimeTable data)))
  end.

Definition setClass (accessToken : string) (week : Week) (time : Time)
    (classId : option string) : Async UserOutType :=
  userData ← verifyAccessTokenAndGetUserData accessToken;
  _ ← mergeUserClass (o_id userData) week time classId;
  mret (mkUserOut (o_id userData) (o_name userData)
          (o_imageFileHash userData)
          (setDay week
             (setTime time (classIdMaybeToClassOutTypeMaybe classId)
                (getDay week (o_classInTimeTable userData)))
             (o_classInTimeTable userData))).

End Database.

End V2.

(** ** More vocabulary of the statements *)

(** A lower-case hex digit, as [bytesToHex] writes them. *)
Definition lowerHexText (text : string) : Prop :=
  Forall (λ c, c ∈ list_ascii_of_string "0123456789abcdef")
    (list_ascii_of_string text).

(** A list of bytes. *)
Definition isBytes (bytes : list Z) : Prop :=
  Forall (λ b, 0 ≤ b < 256) bytes.

(** ASCII lower case of one code unit: [A] to [Z] become [a] to [z]. *)
Definition lowerChar (c : ascii) : ascii :=
  let n := nat_of_ascii c in
  if bool_decide (65 ≤ n ≤ 90)%nat then ascii_of_nat (n + 32) else c.

Fixpoint lowerText (text : string) : string :=
  match text with
  | EmptyString => EmptyString
  | String c rest => String (lowerChar c) (lowerText rest)
  end.

(** A decoder for the text [encodeURIComponentRFC3986] writes: a character
    other than [%] stands for itself, [%XX] for a code unit below 128 and
    [%XX%YY] for one from 128 to 255. *)
Fixpoint decodeRFC3986 (text : string) : string :=
  match text with
  | EmptyString => EmptyString
  | String c rest =>
      if decide (c = "%"%char) then
        match rest with
        | String h1 (String h2 rest2) =>
            let b :=
              default 0 (JS.hexDigitValue h1) * 16
              + default 0 (JS.hexDigitValue h2) in
            if bool_decide (b < 128) then
              String (ascii_of_nat (Z.to_nat b)) (decodeRFC3986 rest2)
            else
              match rest2 with
              | String _ (String k1 (String k2 rest3)) =>
                  let b2 :=
                    default 0 (JS.hexDigitValue k1) * 16
                    + default 0 (JS.hexDigitValue k2) in
                  String
                    (ascii_of_nat
                       (Z.to_nat (Z.land b 31 * 64 + Z.land b2 63)))
                    (decodeRFC3986 rest3)
              | _ => EmptyString
              end
        | _ => EmptyString
        end
      else String c (decodeRFC3986 rest)
  end.

(** An operation that keeps every user document and the part [part] of
    it. *)
Definition keepsUserPart {A B} (part : UserData → B) (m : Async A) : Prop :=
  ∀ w id u,
    user (firestore w) !! id = Some u →
    ∃ u', user (firestore (m w).1) !! id = Some u' ∧ part u' = part u.

(** The fields of a user document no function writes after creation. *)
Definition identityOf (u : UserData) : string * string * string * Z :=
  (name u, lineUserId u, imageFileHash u, createdAt u).

Definition isSetClass (c : Call) : bool :=
  match c with
  | CallSetClass _ _ _ _ => true
  | _ => false
  end.

(** The calls that can write a token hash: the callback, [createUser] and
    [updateAccessToken]. *)
Definition issuesToken (c : Call) : bool :=
  match c with
  | CallCreateUser _ _ _ | CallUpdateAccessToken _ | CallLoginCallback _ _ =>
      true
  | _ => false
  end.

(** A character that needs no escaping anywhere in a URL: a letter, a
    digit, or one of [-], [_], [.], [~]; or the [%] of an escape. *)
Definition isUrlSafeChar (c : ascii) : bool :=
  let n := Z.of_nat (nat_of_ascii c) in
  bool_decide (48 ≤ n ≤ 57) || bool_decide (65 ≤ n ≤ 90)
  || bool_decide (97 ≤ n ≤ 122)
  || bool_decide (n ∈ [45; 95; 46; 126; 37]).

Definition urlSafeText (text : string) : Prop :=
  Forall (λ c, isUrlSafeChar c = true) (list_ascii_of_string text).

(** The part of [lineLoginCallback] after the state has been accepted:
    the token request, the check of the id token, and the login of the
    user or the creation of a new one. *)
Definition completeLogin `{Platform} (code : string) : Async Response :=
  idToken ← requestIdToken code;
  lineData ← verifyAccessTokenAndGetData idToken;
  userData ← getUserFromLineAccountId (l_sub lineData);
  match userData with
  | None =>
      accessToken ← createUser (l_name lineData) (l_picture lineData)
                      (l_sub lineData);
      url ← createAccessTokenUrl accessToken;
      mret (Redirect url)
  | Some (id, _) =>
      accessToken ← updateAccessToken id;
      url ← createAccessTokenUrl accessToken;
      mret (Redirect url)
  end.


(** ** More test doubles *)

Module Sample2.


(** An image of 28 bytes; with the content type ["text"] the sample digest
    of the file is 64 hex characters. *)
Definition image28 : list Z := replicate 28 171.

Definition reference0 : Reference :=
  mkReference
    (<["class-b" :=
         mkClassData "Algebra" "Noether" "room-1"
           (mkWeekAndTime monday class1)]>
       (<["class-a" :=
            mkClassData "Physics" "Curie" "room-2"
              (mkWeekAndTime friday class3)]> ∅))
    (<["room-2" := mkRoomData "2601"]> (<["room-1" := mkRoomData "2603"]> ∅)).

End Sample2.

(** No two user documents have the same LINE id. *)
Definition uniqueLineIds (w : World) : Prop :=
  ∀ id1 id2 u1 u2,
    user (firestore w) !! id1 = Some u1 →
    user (firestore w) !! id2 = Some u2 →
    lineUserId u1 = lineUserId u2 → id1 = id2.

Definition isCreateUser (c : Call) : bool :=
  match c with
  | CallCreateUser _ _ _ => true
  | _ => false
  end.

(** How one call can change the user collection: not at all, by rewriting
    one document without touching its LINE id, or by adding one document
    whose LINE id no document had. *)
Definition keepsLineIds (users users' : gmap string UserData) : Prop :=
  users' = users
  ∨ (∃ id u u',
       users !! id = Some u ∧ lineUserId u' = lineUserId u
       ∧ users' = <[id := u']> users)
  ∨ (∃ id u,
       users !! id = None
       ∧ (∀ id' v, users !! id' = Some v → lineUserId v ≠ lineUserId u)
       ∧ users' = <[id := u]> users).

(** * Properties *)

(** ** The identity hasher *)

Section HasherFacts.
Context `{Platform}.

(** A slice that ends within the first [k] code units reads the same from
    the string and from its first [k] code units. *)
Lemma substring_prefix (s : string) :
  ∀ n m k : nat, (n + m ≤ k)%nat →
    substring n m (substring 0 k s) = substring n m s.
Proof.
  induction s as [|c s IH]; intros n m k Hk.
  - destruct k; reflexivity.
  - destruct k as [|k].
    + assert (n = 0%nat) as -> by lia. assert (m = 0%nat) as -> by lia.
      reflexivity.
    + destruct n as [|n]; simpl.
      * destruct m as [|m]; [reflexivity|].
        f_equal. apply (IH 0%nat). lia.
      * apply IH. lia.
Qed.

Lemma slice_prefix (s : string) (i k : nat) :
  (i + 2 ≤ k)%nat →
  JS.slice (substring 0 k s) i (i + 2) = JS.slice s i (i + 2).
Proof.
  intros Hk. unfold JS.slice. apply substring_prefix. lia.
Qed.

(** Two loops that store the same value at every index they visit build the
    same array. *)
Lemma foldl_insert_ext (f g : nat → Z) (idx : list nat) :
  (∀ i, i ∈ idx → f i = g i) →
  ∀ binary : list Z,
    foldl (λ b i, <[i := f i]> b) binary idx
    = foldl (λ b i, <[i := g i]> b) binary idx.
Proof.
  induction idx as [|i idx IH]; intros Hfg binary; [reflexivity|].
  simpl. rewrite (Hfg i) by left.
  apply IH. intros j Hj. apply Hfg. by right.
Qed.

(** The loop never reads past index 24 of the token. *)
Lemma accessTokenToTypedArray_prefix (accessToken : string) :
  accessTokenToTypedArray (substring 0 25 accessToken)
  = accessTokenToTypedArray accessToken.
Proof.
  unfold accessTokenToTypedArray.
  apply foldl_insert_ext. intros i Hi.
  apply elem_of_seq in Hi.
  rewrite slice_prefix by lia. reflexivity.
Qed.

(** The loop as a table: entry [i] is the byte parsed from the slice
    [i .. i + 2]. *)
Lemma accessTokenToTypedArray_table (accessToken : string) :
  accessTokenToTypedArray accessToken
  = (λ i, JS.ToUint8 (JS.parseInt16 (JS.slice accessToken i (i + 2))))
      <$> seq 0 24.
Proof. reflexivity. Qed.

(** The array always has 24 elements, each a byte. *)
Lemma accessTokenToTypedArray_bytes (accessToken : string) :
  length (accessTokenToTypedArray accessToken) = 24%nat
  ∧ Forall (λ b, 0 ≤ b < 256) (accessTokenToTypedArray accessToken).
Proof.
  rewrite accessTokenToTypedArray_table. split.
  - by rewrite length_fmap, length_seq.
  - apply Forall_fmap, Forall_forall. intros i _. simpl.
    destruct (JS.parseInt16 _) as [z|]; simpl; [|lia].
    apply Z.mod_pos_bound. lia.
Qed.

(** C10. [hashAccessToken] depends only on the first 25 characters of the
    token: two tokens that agree on their first 25 characters have the same
    digest, whatever the digest function is, because the loop reads the
    overlapping slices [i .. i + 2] for [i] from 0 to 23 and so never reads
    past index 24. *)
Theorem hashAccessToken_first_25 (t1 t2 : string) :
  substring 0 25 t1 = substring 0 25 t2 →
  hashAccessToken t1 = hashAccessToken t2.
Proof.
  intros Hpre. unfold hashAccessToken.
  rewrite <- (accessTokenToTypedArray_prefix t1).
  rewrite <- (accessTokenToTypedArray_prefix t2).
  by rewrite Hpre.
Qed.

(** C5 (as the code behaves). The digest is a function of the token, yet
    two distinct tokens, each the hex text of 24 bytes as [createAccessToken]
    produces them, get the same digest under every digest function. *)
Theorem hashAccessToken_not_injective :
  Sample.tokenA ≠ Sample.tokenB
  ∧ String.length Sample.tokenA = 48%nat
  ∧ String.length Sample.tokenB = 48%nat
  ∧ (∃ bytesA bytesB,
       Sample.tokenA = JS.bytesToHex bytesA
       ∧ Sample.tokenB = JS.bytesToHex bytesB
       ∧ length bytesA = 24%nat ∧ length bytesB = 24%nat)
  ∧ accessTokenToTypedArray Sample.tokenA
    = accessTokenToTypedArray Sample.tokenB
  ∧ hashAccessToken Sample.tokenA = hashAccessToken Sample.tokenB.
Proof.
  split; [by vm_compute|].
  split; [reflexivity|]. split; [reflexivity|].
  split.
  - exists [0; 17; 34; 51; 68; 85; 102; 119; 136; 153; 170; 187; 204; 221;
            238; 255; 0; 17; 34; 51; 68; 85; 102; 119],
           [0; 17; 34; 51; 68; 85; 102; 119; 136; 153; 170; 187; 207; 255;
            255; 255; 255; 255; 255; 255; 255; 255; 255; 255].
    by vm_compute.
  - assert (accessTokenToTypedArray Sample.tokenA
            = accessTokenToTypedArray Sample.tokenB) as Heq
      by (by vm_compute).
    split; [exact Heq|]. unfold hashAccessToken. by rewrite Heq.
Qed.

End HasherFacts.

(** Two tokens that differ from their 26th character on. *)
Lemma hashAccessToken_first_25_witness :
  substring 0 25 Sample.tokenA = substring 0 25 Sample.tokenB
  ∧ @hashAccessToken Sample.platform Sample.tokenA
    = @hashAccessToken Sample.platform Sample.tokenB.
Proof.
  split; [reflexivity|].
  apply (@hashAccessToken_first_25 Sample.platform). reflexivity.
Defined.

(** ** Queries on the user collection *)

Section QueryFacts.
Context (field : UserData → string) (value : string).
Context (users : gmap string UserData).

(** A query returns exactly the documents whose field has the value. *)
Lemma elem_of_whereEq (id : string) (u : UserData) :
  (id, u) ∈ whereEq field value users
  ↔ users !! id = Some u ∧ field u = value.
Proof.
  unfold whereEq. rewrite merge_sort_Permutation.
  rewrite list_elem_of_filter, elem_of_map_to_list. simpl. tauto.
Qed.

(** No document is returned twice. *)
Lemma NoDup_whereEq : NoDup (whereEq field value users).
Proof.
  unfold whereEq. rewrite merge_sort_Permutation.
  apply NoDup_filter, NoDup_map_to_list.
Qed.

Lemma whereEq_nil :
  whereEq field value users = []
  ↔ ∀ id u, users !! id = Some u → field u ≠ value.
Proof.
  split.
  - intros Hnil id u Hu Hf.
    assert ((id, u) ∈ whereEq field value users) as Hin
      by (by apply elem_of_whereEq).
    rewrite Hnil in Hin. by apply elem_of_nil in Hin.
  - intros Hno. destruct (whereEq field value users) as [|[id u] l] eqn:E;
      [reflexivity|].
    assert ((id, u) ∈ whereEq field value users) as Hin
      by (rewrite E; left).
    apply elem_of_whereEq in Hin as [Hu Hf]. by destruct (Hno id u).
Qed.

(** The first document of a non-empty answer is a matching document. *)
Lemma head_whereEq (id : string) (u : UserData) :
  head (whereEq field value users) = Some (id, u) →
  users !! id = Some u ∧ field u = value.
Proof.
  intros Hhd. apply elem_of_whereEq.
  destruct (whereEq field value users) as [|d l]; [discriminate|].
  simpl in Hhd. injection Hhd as ->. left.
Qed.

(** When one document only has the value, the answer is that document. *)
Lemma whereEq_unique (id : string) (u : UserData) :
  users !! id = Some u → field u = value →
  (∀ id' u', users !! id' = Some u' → field u' = value → id' = id) →
  whereEq field value users = [(id, u)].
Proof.
  intros Hu Hf Huniq.
  assert (∀ d, d ∈ whereEq field value users → d = (id, u)) as Hall.
  { intros [id' u'] [Hu' Hf']%elem_of_whereEq.
    assert (id' = id) as -> by eauto. congruence. }
  assert ((id, u) ∈ whereEq field value users) as Hin
    by (by apply elem_of_whereEq).
  pose proof NoDup_whereEq as Hnd.
  destruct (whereEq field value users) as [|d l]; [by apply elem_of_nil in Hin|].
  assert (d = (id, u)) as -> by (apply Hall; left).
  destruct l as [|d' l]; [reflexivity|].
  assert (d' = (id, u)) as -> by (apply Hall; right; left).
  apply NoDup_cons in Hnd as [Hnot _]. destruct Hnot. left.
Qed.

End QueryFacts.

(** ** Token issue and session verification *)

Section SessionFacts.
Context `{Platform}.

(** [verifyAccessTokenAndGetUserData] reads and never writes: it answers
    with the first document of the query, or throws when there is none. *)
Lemma verify_run (accessToken : string) (w : World) :
  verifyAccessTokenAndGetUserData accessToken w
  = (w,
     match head (whereEq lastIssuedAccessTokenHash
                   (hashAccessToken accessToken) (user (firestore w))) with
     | None => Throw InvalidAccessToken
     | Some (id, data) => Ok (userOut id data)
     end).
Proof.
  unfold verifyAccessTokenAndGetUserData, queryUser, mbind, Async_bind.
  destruct (head _) as [[id data]|]; reflexivity.
Qed.


(** A token whose digest exactly one document stores opens the session of
    that document. *)
Lemma verify_unique_match (accessToken id : string) (u : UserData) (w : World) :
  user (firestore w) !! id = Some u →
  lastIssuedAccessTokenHash u = hashAccessToken accessToken →
  (∀ id' u', id' ≠ id → user (firestore w) !! id' = Some u' →
             lastIssuedAccessTokenHash u' ≠ hashAccessToken accessToken) →
  verifyAccessTokenAndGetUserData accessToken w = (w, Ok (userOut id u)).
Proof.
  intros Hu Hhash Hothers. rewrite verify_run.
  rewrite (whereEq_unique _ _ _ id u Hu Hhash); [reflexivity|].
  intros id' u' Hu' Hhash'.
  destruct (decide (id' = id)) as [|Hne]; [done|].
  by destruct (Hothers id' u' Hne Hu').
Qed.

(** [updateAccessToken] on an existing user: 24 random bytes are drawn, the
    token hash of the document is overwritten, one write is journalled. *)
Lemma updateAccessToken_run (userId : string) (u : UserData) (w : World) :
  user (firestore w) !! userId = Some u →
  ∃ newAccessToken,
    updateAccessToken userId w
    = (mkWorld
         (mkFirestore
            (<[userId := withTokenHash (hashAccessToken newAccessToken) u]>
               (user (firestore w)))
            (lineLoginState (firestore w)))
         (bucket w) (drawn w + 24) (clock w)
         (journal w ++ [WUpdate "user" userId]),
       Ok newAccessToken).
Proof.
  intros Hu. eexists.
  unfold updateAccessToken, createAccessToken, updateUserTokenHash,
    randomBytes, mbind, Async_bind, mret, Async_ret.
  cbn [firestore user]. rewrite Hu. reflexivity.
Qed.

(** C6. [verifyAccessTokenAndGetUserData] computes the digest of the token
    and fails exactly when no user document stores that digest, and then
    with the invalid-session error; when some document stores it, the call
    returns the data of a document that stores it.  Nothing is written. *)
Theorem verify_fails_iff_no_match (accessToken : string) (w : World) :
  let digest := hashAccessToken accessToken in
  let stores id u :=
    user (firestore w) !! id = Some u ∧ lastIssuedAccessTokenHash u = digest in
  ((∃ e, (verifyAccessTokenAndGetUserData accessToken w).2 = Throw e)
   ↔ ¬ ∃ id u, stores id u)
  ∧ (∀ e, (verifyAccessTokenAndGetUserData accessToken w).2 = Throw e
          → e = InvalidAccessToken)
  ∧ ((∃ id u, stores id u)
     → ∃ id u, stores id u
         ∧ verifyAccessTokenAndGetUserData accessToken w
           = (w, Ok (userOut id u)))
  ∧ (verifyAccessTokenAndGetUserData accessToken w).1 = w.
Proof.
  intros digest stores. rewrite verify_run. cbn [fst snd].
  destruct (head _) as [[id u]|] eqn:Hhd.
  - apply head_whereEq in Hhd as Hst.
    repeat split.
    + intros [e He]. discriminate.
    + intros Hno. destruct Hno. by exists id, u.
    + intros e He. discriminate.
    + intros _. by exists id, u.
  - assert (∀ id u, ¬ stores id u) as Hno.
    { intros id u [Hu Hd].
      apply head_None in Hhd.
      by eapply whereEq_nil in Hhd. }
    repeat split.
    + intros _ (id & u & Hst). by apply (Hno id u).
    + intros _. by eexists.
    + intros e He. congruence.
    + intros (id & u & Hst). by destruct (Hno id u).
Qed.


(** C9. [updateAccessToken] makes exactly one persisted write, an update of
    the user's document, and that write changes the token hash only: name,
    LINE user id, image hash, creation time and all 30 timetable cells stay,
    as do all other documents, the login states and the bucket.  A request
    that bears the new token, whose digest no other user stores, returns the
    timetable as it was before. *)
Theorem reissue_writes_token_hash_only
    (userId : string) (u : UserData) (w : World) :
  user (firestore w) !! userId = Some u →
  ∃ w' newToken u',
    updateAccessToken userId w = (w', Ok newToken)
    ∧ journal w' = (journal w ++ [WUpdate "user" userId])%list
    ∧ user (firestore w') = <[userId := u']> (user (firestore w))
    ∧ lastIssuedAccessTokenHash u' = hashAccessToken newToken
    ∧ name u' = name u
    ∧ lineUserId u' = lineUserId u
    ∧ imageFileHash u' = imageFileHash u
    ∧ createdAt u' = createdAt u
    ∧ classInTimeTable u' = classInTimeTable u
    ∧ cells (classInTimeTable u') = cells (classInTimeTable u)
    ∧ length (cells (classInTimeTable u')) = 30%nat
    ∧ lineLoginState (firestore w') = lineLoginState (firestore w)
    ∧ bucket w' = bucket w
    ∧ ((∀ id' v, id' ≠ userId → user (firestore w) !! id' = Some v →
                 lastIssuedAccessTokenHash v ≠ hashAccessToken newToken) →
       ∃ out,
         verifyAccessTokenAndGetUserData newToken w' = (w', Ok out)
         ∧ o_id out = userId
         ∧ o_classInTimeTable out = classInTimeTable u).
Proof.
  intros Hu. destruct (updateAccessToken_run userId u w Hu) as [newToken Hrun].
  eexists _, newToken, (withTokenHash (hashAccessToken newToken) u).
  split; [exact Hrun|].
  repeat (split; [reflexivity|]).
  intros Hothers. eexists. split.
  - apply (verify_unique_match newToken userId
             (withTokenHash (hashAccessToken newToken) u)).
    + cbn [firestore user]. apply lookup_insert_eq.
    + reflexivity.
    + cbn [firestore user]. intros id' u' Hne Hu'.
      rewrite lookup_insert_ne in Hu' by done. by apply (Hothers id').
  - split; reflexivity.
Qed.

End SessionFacts.

(** ** Order of the answers *)

Section QueryOrder.
Context (field : UserData → string) (value : string).
Context (users : gmap string UserData).

#[local] Instance byId_trans : Transitive (@byId UserData).
Proof. intros a b c. unfold byId. apply transitivity. Qed.

#[local] Instance byId_total : Total (@byId UserData).
Proof. intros a b. unfold byId. apply total, _. Qed.

(** The first document of an answer has the least id among the matching
    documents. *)
Lemma head_whereEq_least (id : string) (u : UserData) :
  head (whereEq field value users) = Some (id, u) →
  ∀ id' u', users !! id' = Some u' → field u' = value → String.le id id'.
Proof.
  intros Hhd id' u' Hu' Hf'.
  assert ((id', u') ∈ whereEq field value users) as Hin
    by (by apply elem_of_whereEq).
  assert (StronglySorted byId (whereEq field value users)) as Hs
    by (apply StronglySorted_merge_sort; apply _).
  destruct (whereEq field value users) as [|d l]; [discriminate|].
  simpl in Hhd. injection Hhd as ->.
  apply StronglySorted_inv in Hs as [_ Hall].
  apply elem_of_cons in Hin as [Heq|Hin].
  - injection Heq as -> ->. reflexivity.
  - rewrite Forall_forall in Hall. apply (Hall _ Hin).
Qed.

(** The matching document with the least id is the first of the answer. *)
Lemma head_whereEq_intro (id : string) (u : UserData) :
  users !! id = Some u → field u = value →
  (∀ id' u', users !! id' = Some u' → field u' = value → String.le id id') →
  head (whereEq field value users) = Some (id, u).
Proof.
  intros Hu Hf Hleast.
  destruct (head (whereEq field value users)) as [[id0 u0]|] eqn:Hhd.
  - pose proof (head_whereEq _ _ _ _ _ Hhd) as [Hu0 Hf0].
    pose proof (head_whereEq_least _ _ Hhd id u Hu Hf) as Hle.
    pose proof (Hleast id0 u0 Hu0 Hf0) as Hge.
    assert (id0 = id) as -> by (by apply (anti_symm String.le)).
    congruence.
  - apply head_None in Hhd.
    by destruct (proj1 (whereEq_nil _ _ _) Hhd id u).
Qed.

End QueryOrder.

(** ** The timetable *)

Section GridFacts.

Lemma cell_setCell_eq week time classId g :
  cell week time (setCell week time classId g) = classId.
Proof. by destruct week, time. Qed.

Lemma cell_setCell_ne week time classId g week' time' :
  (week', time') ≠ (week, time) →
  cell week' time' (setCell week time classId g) = cell week' time' g.
Proof. by destruct week, time, week', time'. Qed.

Lemma setCell_idem week time classId g :
  setCell week time classId (setCell week time classId g)
  = setCell week time classId g.
Proof. by destruct week, time. Qed.

(** A grid has 30 cells, one for each day and period, in the order of the
    days and of the periods. *)
Lemma cells_keys g :
  (cells g).*1 = (week ← allWeek; time ← allTime; [(week, time)]).
Proof. reflexivity. Qed.

Lemma NoDup_cells_keys g : NoDup (cells g).*1.
Proof. rewrite cells_keys. apply (bool_decide_unpack _). by vm_compute. Qed.

Lemma length_cells g : length (cells g) = 30%nat.
Proof. reflexivity. Qed.

Lemma elem_of_cells g week time v :
  (week, time, v) ∈ cells g ↔ v = cell week time g.
Proof.
  split.
  - unfold cells, allWeek, allTime. cbn [mbind list_bind app mret list_ret].
    rewrite !elem_of_cons, elem_of_nil. intros Hin.
    repeat (destruct Hin as [Hin|Hin]; [by injection Hin as -> -> ->|]).
    done.
  - intros ->. destruct week, time; unfold cells, allWeek, allTime;
      cbn [mbind list_bind app mret list_ret];
      repeat first [left; reflexivity | right].
Qed.

(** The cells other than one are 29. *)
Lemma other_cells week time g :
  length (filter (λ c, c.1 ≠ (week, time)) (cells g)) = 29%nat.
Proof. by destruct week, time. Qed.

End GridFacts.

(** ** Writing a timetable cell *)

Section TimetableFacts.
Context `{Platform}.

Lemma getUser_run (id : string) (w : World) :
  getUser id w
  = (w,
     match user (firestore w) !! id with
     | None => Throw (UserDoseNotExits id)
     | Some u => Ok (name u, classInTimeTable u, imageFileHash u)
     end).
Proof.
  unfold getUser, getUserDoc, mbind, Async_bind.
  destruct (user (firestore w) !! id); reflexivity.
Qed.

(** A session that opens belongs to the first document of the query. *)
Lemma verify_ok_inv (accessToken : string) (w : World) (session : UserOutType) :
  (verifyAccessTokenAndGetUserData accessToken w).2 = Ok session →
  ∃ id u,
    head (whereEq lastIssuedAccessTokenHash (hashAccessToken accessToken)
            (user (firestore w))) = Some (id, u)
    ∧ session = userOut id u.
Proof.
  rewrite verify_run. cbn [snd].
  destruct (head _) as [[id u]|]; [|discriminate].
  intros [= <-]. by exists id, u.
Qed.

(** [setClass] with a token that opens the session of document [id]: the
    cell is merged into that document, one write is journalled, and the
    answer is the session with the cell overwritten. *)
Lemma setClass_run (accessToken : string) (week : Week) (time : Time)
    (classId : option string) (w : World) (id : string) (u : UserData) :
  head (whereEq lastIssuedAccessTokenHash (hashAccessToken accessToken)
          (user (firestore w))) = Some (id, u) →
  setClass accessToken week time classId w
  = (mkWorld
       (mkFirestore
          (<[id := withCell week time classId u]> (user (firestore w)))
          (lineLoginState (firestore w)))
       (bucket w) (drawn w) (clock w)
       (journal w ++ [WSetMerge "user" id]),
     Ok (userOut id (withCell week time classId u))).
Proof.
  intros Hhd. pose proof (head_whereEq _ _ _ _ _ Hhd) as [Hu _].
  unfold setClass, mbind, Async_bind. rewrite verify_run, Hhd.
  unfold mergeUserClass. cbn [o_id userOut]. rewrite Hu. reflexivity.
Qed.

(** C2. With a token that opens a session, [setClass] succeeds; reading the
    user afterwards shows the given value in the cell of the given day and
    period, and in each of the other 29 cells the value it held before.  The
    grid returned is the grid stored. *)
Theorem setClass_writes_one_cell
    (accessToken : string) (week : Week) (time : Time)
    (classId : option string) (w : World) (session : UserOutType) :
  (verifyAccessTokenAndGetUserData accessToken w).2 = Ok session →
  ∃ w' out name' image before after,
    setClass accessToken week time classId w = (w', Ok out)
    ∧ getUser (o_id session) w = (w, Ok (name', before, image))
    ∧ getUser (o_id session) w' = (w', Ok (name', after, image))
    ∧ cell week time after = classId
    ∧ (∀ week' time', (week', time') ≠ (week, time) →
         cell week' time' after = cell week' time' before)
    ∧ length (filter (λ c, c.1 ≠ (week, time)) (cells after)) = 29%nat
    ∧ o_id out = o_id session
    ∧ o_classInTimeTable out = after.
Proof.
  intros Hok. destruct (verify_ok_inv _ _ _ Hok) as (id & u & Hhd & ->).
  cbn [o_id userOut] in *.
  pose proof (head_whereEq _ _ _ _ _ Hhd) as [Hu _].
  eexists _, _, (name u), (imageFileHash u), (classInTimeTable u),
    (setCell week time classId (classInTimeTable u)).
  split; [by apply setClass_run|].
  split; [by rewrite getUser_run, Hu|].
  split.
  { rewrite getUser_run. cbn [firestore user].
    by rewrite lookup_insert_eq. }
  split; [apply cell_setCell_eq|].
  split; [intros week' time' Hne; by apply cell_setCell_ne|].
  split; [apply other_cells|].
  split; reflexivity.
Qed.

(** C7. With a token that opens a session, calling [setClass] twice with
    the same arguments succeeds both times, returns the same snapshot both
    times, and the second call leaves every stored document as the first
    call left it. *)
Theorem setClass_idempotent
    (accessToken : string) (week : Week) (time : Time)
    (classId : option string) (w : World) (session : UserOutType) :
  (verifyAccessTokenAndGetUserData accessToken w).2 = Ok session →
  ∃ w1 w2 out,
    setClass accessToken week time classId w = (w1, Ok out)
    ∧ setClass accessToken week time classId w1 = (w2, Ok out)
    ∧ firestore w2 = firestore w1.
Proof.
  intros Hok. destruct (verify_ok_inv _ _ _ Hok) as (id & u & Hhd & ->).
  pose proof (head_whereEq _ _ _ _ _ Hhd) as [Hu Hhash].
  set (u1 := withCell week time classId u).
  eexists _, _, _. split; [by apply setClass_run|].
  assert (withCell week time classId u1 = u1) as Hidem.
  { unfold u1, withCell. cbn. by rewrite setCell_idem. }
  rewrite (setClass_run _ _ _ _ _ id u1).
  - cbn [firestore user lineLoginState]. rewrite Hidem.
    split; [reflexivity|]. cbn [firestore].
    by rewrite insert_insert_eq.
  - cbn [firestore user]. apply head_whereEq_intro.
    + apply lookup_insert_eq.
    + exact Hhash.
    + intros id' u' Hu' Hhash'.
      destruct (decide (id' = id)) as [->|Hne]; [reflexivity|].
      rewrite lookup_insert_ne in Hu' by done.
      by apply (head_whereEq_least _ _ _ _ _ Hhd id' u').
Qed.

(** The merge write of [setClass] always finds the document: the write goes
    to the document the query has just returned. *)
Lemma setClass_document_exists
    (accessToken : string) (week : Week) (time : Time)
    (classId : option string) (w : World) (id : string) :
  (setClass accessToken week time classId w).2 ≠ Throw (PartialUserDocument id).
Proof.
  destruct (head (whereEq lastIssuedAccessTokenHash
                    (hashAccessToken accessToken) (user (firestore w))))
    as [[id' u]|] eqn:Hhd.
  - by rewrite (setClass_run _ _ _ _ _ _ _ Hhd).
  - unfold setClass, mbind, Async_bind. rewrite verify_run, Hhd. done.
Qed.

End TimetableFacts.

(** ** Creating a user *)

Section CreateUserFacts.
Context `{Platform}.

(** C8. A user document created by [createUser] holds a timetable of
    exactly 30 cells, one for each day from Monday to Saturday and each
    period from 1 to 5, and every cell is empty. *)
Theorem createUser_timetable_empty
    (name' imageUrl lineUserId' : string) (w w' : World) (accessToken : string) :
  createUser name' imageUrl lineUserId' w = (w', Ok accessToken) →
  ∃ userId u,
    user (firestore w) !! userId = None
    ∧ user (firestore w') = <[userId := u]> (user (firestore w))
    ∧ name u = name'
    ∧ lineUserId u = lineUserId'
    ∧ lastIssuedAccessTokenHash u = hashAccessToken accessToken
    ∧ length (cells (classInTimeTable u)) = 30%nat
    ∧ (cells (classInTimeTable u)).*1
      = (week ← allWeek; time ← allTime; [(week, time)])
    ∧ NoDup (cells (classInTimeTable u)).*1
    ∧ Forall (λ c, c.2 = None) (cells (classInTimeTable u))
    ∧ (∀ week time, cell week time (classInTimeTable u) = None).
Proof.
  unfold createUser, createRandomId, saveUserImageFromUrl, saveFile,
    fileSave, createAccessToken, now, createUserDoc, randomBytes, throw,
    mbind, Async_bind, mret, Async_ret.
  destruct (fetchImage imageUrl) as [[data mimeType]|]; [|discriminate].
  cbn [firestore user].
  destruct (user (firestore w) !! _) as [existing|] eqn:Hfresh; [discriminate|].
  intros [= <- <-]. eexists _, _. split; [exact Hfresh|].
  cbn [firestore user]. split; [reflexivity|].
  cbn [name lineUserId lastIssuedAccessTokenHash classInTimeTable].
  repeat (split; [reflexivity|]).
  split; [apply NoDup_cells_keys|].
  split; [by repeat constructor|].
  intros week time. by destruct week, time.
Qed.

(** [createUser] does return a token when the image can be downloaded and
    the random id is not taken. *)
Lemma createUser_succeeds (name' imageUrl lineUserId' : string) (w : World) :
  is_Some (fetchImage imageUrl) →
  user (firestore w)
    !! JS.bytesToHex ((λ i, entropy (drawn w + i) mod 256) <$> seq 0 16) = None →
  ∃ w' accessToken,
    createUser name' imageUrl lineUserId' w = (w', Ok accessToken).
Proof.
  intros [[data mimeType] Himg] Hfresh.
  unfold createUser, createRandomId, saveUserImageFromUrl, saveFile,
    fileSave, createAccessToken, now, createUserDoc, randomBytes, throw,
    mbind, Async_bind, mret, Async_ret.
  rewrite Himg. cbn [firestore user]. rewrite Hfresh. by eexists _, _.
Qed.

End CreateUserFacts.

(** ** The login-state store *)

Section LoginStateFacts.
Context `{Platform}.

Lemma checkExistsAndDeleteState_run (state : string) (w : World) :
  checkExistsAndDeleteState state w
  = match lineLoginState (firestore w) !! state with
    | Some _ =>
        (mkWorld
           (mkFirestore (user (firestore w))
              (delete state (lineLoginState (firestore w))))
           (bucket w) (drawn w) (clock w)
           (journal w ++ [WDelete "lineLoginState" state]),
         Ok true)
    | None => (w, Ok false)
    end.
Proof.
  unfold checkExistsAndDeleteState, getLineLoginState, deleteLineLoginState,
    mbind, Async_bind, mret, Async_ret.
  destruct (lineLoginState (firestore w) !! state); reflexivity.
Qed.


(** A state that was issued was not stored before and is stored after; the
    users are untouched. *)
Lemma generateAndWriteLineLoginState_ok (w w1 : World) (state : string) :
  generateAndWriteLineLoginState w = (w1, Ok state) →
  lineLoginState (firestore w) !! state = None
  ∧ lineLoginState (firestore w1)
    = <[state := mkStateData (clock w)]> (lineLoginState (firestore w))
  ∧ user (firestore w1) = user (firestore w).
Proof.
  unfold generateAndWriteLineLoginState, createRandomId, now,
    createLineLoginState, randomBytes, mbind, Async_bind, mret, Async_ret.
  cbn [firestore lineLoginState].
  destruct (lineLoginState (firestore w) !! _) eqn:Hfresh; [discriminate|].
  intros [= <- <-]. cbn [firestore lineLoginState user]. by split.
Qed.

(** A failed issue stores nothing. *)
Lemma generateAndWriteLineLoginState_throw (w w1 : World) (e : Error) :
  generateAndWriteLineLoginState w = (w1, Throw e) →
  firestore w1 = firestore w.
Proof.
  unfold generateAndWriteLineLoginState, createRandomId, now,
    createLineLoginState, randomBytes, mbind, Async_bind, mret, Async_ret.
  cbn [firestore lineLoginState].
  destruct (lineLoginState (firestore w) !! _); [|discriminate].
  by intros [= <- _].
Qed.

End LoginStateFacts.

(** ** Which operations add login states *)

Section NoNewState.
Context `{Platform}.

Lemma addsNoState_ret {A} (a : A) : addsNoState (mret a).
Proof. intros w. reflexivity. Qed.

Lemma addsNoState_throw {A} (e : Error) : addsNoState (@throw A e).
Proof. intros w. reflexivity. Qed.

Lemma addsNoState_bind {A B} (m : Async A) (f : A → Async B) :
  addsNoState m → (∀ a, addsNoState (f a)) → addsNoState (m ≫= f).
Proof.
  intros Hm Hf w. specialize (Hm w).
  unfold mbind, Async_bind. destruct (m w) as [w' [a|e]]; cbn [fst] in *.
  - etrans; [apply Hf|exact Hm].
  - exact Hm.
Qed.

(** An operation that leaves the login-state collection as it is. *)
Lemma addsNoState_same {A} (m : Async A) :
  (∀ w, lineLoginState (firestore (m w).1) = lineLoginState (firestore w)) →
  addsNoState m.
Proof. intros Hsame w. by rewrite Hsame. Qed.

Lemma addsNoState_randomBytes n : addsNoState (randomBytes n).
Proof. by apply addsNoState_same. Qed.

Lemma addsNoState_now : addsNoState now.
Proof. by apply addsNoState_same. Qed.

Lemma addsNoState_fileSave hash buffer mimeType :
  addsNoState (fileSave hash buffer mimeType).
Proof. by apply addsNoState_same. Qed.

Lemma addsNoState_queryUser field value : addsNoState (queryUser field value).
Proof. by apply addsNoState_same. Qed.

Lemma addsNoState_getLineLoginState id : addsNoState (getLineLoginState id).
Proof. by apply addsNoState_same. Qed.

Lemma addsNoState_deleteLineLoginState id :
  addsNoState (deleteLineLoginState id).
Proof. intros w. apply delete_subseteq. Qed.

Lemma addsNoState_createUserDoc id data : addsNoState (createUserDoc id data).
Proof.
  apply addsNoState_same. intros w. unfold createUserDoc.
  by destruct (user (firestore w) !! id).
Qed.

Lemma addsNoState_updateUserTokenHash id hash :
  addsNoState (updateUserTokenHash id hash).
Proof.
  apply addsNoState_same. intros w. unfold updateUserTokenHash.
  by destruct (user (firestore w) !! id).
Qed.

Lemma addsNoState_mergeUserClass id week time classId :
  addsNoState (mergeUserClass id week time classId).
Proof.
  apply addsNoState_same. intros w. unfold mergeUserClass.
  by destruct (user (firestore w) !! id).
Qed.

Create HintDb nostate.

Hint Resolve addsNoState_ret addsNoState_throw addsNoState_randomBytes
  addsNoState_now addsNoState_fileSave addsNoState_queryUser
  addsNoState_getLineLoginState addsNoState_deleteLineLoginState
  addsNoState_createUserDoc addsNoState_updateUserTokenHash
  addsNoState_mergeUserClass : nostate.

(** Splits an operation at its binds and case distinctions down to the
    primitive operations. *)
Ltac adds_no_state :=
  repeat first
    [ progress auto with nostate
    | apply addsNoState_bind; [|intros ?]
    | match goal with
      | |- addsNoState (match ?x with _ => _ end) => destruct x
      | |- addsNoState (if ?b then _ else _) => destruct b
      | |- addsNoState (let '(_, _) := ?x in _) => destruct x
      end ].


Lemma addsNoState_createAccessToken : addsNoState createAccessToken.
Proof. unfold createAccessToken. adds_no_state. Qed.

Lemma addsNoState_createUser name' imageUrl lineUserId' :
  addsNoState (createUser name' imageUrl lineUserId').
Proof.
  unfold createUser, createRandomId, saveUserImageFromUrl, saveFile,
    createAccessToken.
  adds_no_state.
Qed.

Lemma addsNoState_updateAccessToken userId :
  addsNoState (updateAccessToken userId).
Proof. unfold updateAccessToken, createAccessToken. adds_no_state. Qed.



Lemma addsNoState_createAccessTokenUrl accessToken :
  addsNoState (createAccessTokenUrl accessToken).
Proof. unfold createAccessTokenUrl, Data.urlFrom. adds_no_state. Qed.






End NoNewState.

(** ** The login callback *)

Section CallbackFacts.
Context `{Platform}.


End CallbackFacts.

(** ** The statements on the sample world *)



(** The sample world stores Alice and Bob and nobody else. *)
Lemma sample_users (id : string) (u : UserData) :
  user (firestore Sample.world0) !! id = Some u →
  (id = "user-alice" ∧ u = Sample.alice) ∨ (id = "user-bob" ∧ u = Sample.bob).
Proof.
  unfold Sample.world0. cbn [firestore user]. intros Hu.
  destruct (decide (id = "user-alice")) as [->|Ha].
  - rewrite lookup_insert_eq in Hu. left. by injection Hu as <-.
  - rewrite lookup_insert_ne in Hu by done.
    destruct (decide (id = "user-bob")) as [->|Hb].
    + rewrite lookup_insert_eq in Hu. right. by injection Hu as <-.
    + rewrite lookup_insert_ne in Hu by done.
      by rewrite lookup_empty in Hu.
Qed.


Lemma reissue_writes_token_hash_only_witness :
  user (firestore Sample.world0) !! "user-alice" = Some Sample.alice
  ∧ ∃ w' newToken,
      @updateAccessToken Sample.platform "user-alice" Sample.world0
      = (w', Ok newToken)
      ∧ journal w' = [WUpdate "user" "user-alice"]
      ∧ ∃ out,
          @verifyAccessTokenAndGetUserData Sample.platform newToken w'
          = (w', Ok out)
          ∧ o_classInTimeTable out = Sample.grid0.
Proof.
  split; [by vm_compute|].
  destruct (@reissue_writes_token_hash_only Sample.platform "user-alice"
              Sample.alice Sample.world0)
    as (w' & newToken & u' & Hrun & Hjournal & _ & _ & _ & _ & _ & _ & _ & _
        & _ & _ & _ & Hnew);
    [by vm_compute|].
  exists w', newToken. split; [exact Hrun|]. split; [exact Hjournal|].
  assert (newToken = "030a11181f262d343b424950575e656c737a81888f969da4")
    as Htoken.
  { vm_compute in Hrun. by injection Hrun. }
  destruct Hnew as (out & Hout & _ & Hgrid).
  - intros id' v Hne [[-> ->]|[-> ->]]%sample_users; [done|].
    rewrite Htoken. by vm_compute.
  - by exists out.
Defined.

Lemma setClass_writes_one_cell_witness :
  (@verifyAccessTokenAndGetUserData Sample.platform Sample.tokenA
     Sample.world0).2
  = Ok (userOut "user-alice" Sample.alice)
  ∧ ∃ w' out,
      @setClass Sample.platform Sample.tokenA monday class3
        (Some "class-logic") Sample.world0 = (w', Ok out)
      ∧ cell monday class3 (o_classInTimeTable out) = Some "class-logic"
      ∧ cell tuesday class2 (o_classInTimeTable out) = Some "class-algebra".
Proof.
  split; [by vm_compute|].
  destruct (@setClass_writes_one_cell Sample.platform Sample.tokenA monday
              class3 (Some "class-logic") Sample.world0
              (userOut "user-alice" Sample.alice))
    as (w' & out & name' & image & before & after & Hrun & Hbefore & _
        & Hcell & Hothers & _ & _ & Hout);
    [by vm_compute|].
  exists w', out. split; [exact Hrun|]. rewrite Hout.
  split; [exact Hcell|].
  rewrite Hothers by done.
  vm_compute in Hbefore. by injection Hbefore as _ <- _.
Defined.

Lemma setClass_idempotent_witness :
  (@verifyAccessTokenAndGetUserData Sample.platform Sample.tokenC
     Sample.world0).2
  = Ok (userOut "user-bob" Sample.bob)
  ∧ ∃ w1 w2 out,
      @setClass Sample.platform Sample.tokenC friday class1 None
        Sample.world0 = (w1, Ok out)
      ∧ @setClass Sample.platform Sample.tokenC friday class1 None w1
        = (w2, Ok out)
      ∧ firestore w2 = firestore w1.
Proof.
  split; [by vm_compute|].
  apply (@setClass_idempotent Sample.platform Sample.tokenC friday class1
           None Sample.world0 (userOut "user-bob" Sample.bob)).
  by vm_compute.
Defined.


Lemma createUser_timetable_empty_witness :
  ∃ w' accessToken userId u,
    @createUser Sample.platform "Hanako" "https://profile.line.me/p.png"
      "U1234" Sample.world0 = (w', Ok accessToken)
    ∧ user (firestore w') !! userId = Some u
    ∧ name u = "Hanako"
    ∧ length (cells (classInTimeTable u)) = 30%nat
    ∧ ∀ week time, cell week time (classInTimeTable u) = None.
Proof.
  assert (∃ w',
            @createUser Sample.platform "Hanako"
              "https://profile.line.me/p.png" "U1234" Sample.world0
            = (w', Ok "737a81888f969da4abb2b9c0c7ced5dce3eaf1f8ff060d14"))
    as [w' Hrun] by (eexists; by vm_compute).
  destruct (@createUser_timetable_empty Sample.platform _ _ _ _ _ _ Hrun)
    as (userId & u & _ & Hstore & Hname & _ & _ & Hlen & _ & _ & _ & Hempty).
  exists w', "737a81888f969da4abb2b9c0c7ced5dce3eaf1f8ff060d14", userId, u.
  split; [exact Hrun|].
  split; [by rewrite Hstore, lookup_insert_eq|]. by repeat split.
Defined.

(** What the shared digest means for a session: when the token issued at a
    new login agrees with the old one on its first 25 characters, the old
    token still opens the session. *)
Lemma stale_token_survives_reissue :
  Sample.tokenA ≠ Sample.tokenB
  ∧ ∃ w',
      @updateAccessToken Sample.platformB "user-alice" Sample.world0
      = (w', Ok Sample.tokenB)
      ∧ @verifyAccessTokenAndGetUserData Sample.platformB Sample.tokenA w'
        = (w', Ok (userOut "user-alice" Sample.alice)).
Proof.
  split; [by vm_compute|]. eexists. split; by vm_compute.
Qed.

(** * Further properties of the code *)

(** ** Tokens as hex text *)

Section HexTokenFacts.
Context `{Platform}.

(** Two hex digits parse to the byte they spell. *)
Lemma parseInt16_two_hex (a b : Z) :
  0 ≤ a < 16 → 0 ≤ b < 16 →
  JS.ToUint8
    (JS.parseInt16 (String (JS.hexChar a) (String (JS.hexChar b) EmptyString)))
  = 16 * a + b.
Proof.
  intros Ha Hb.
  assert (Forall (λ a, Forall (λ b,
            JS.ToUint8
              (JS.parseInt16
                 (String (JS.hexChar a) (String (JS.hexChar b) EmptyString)))
            = 16 * a + b) (seqZ 0 16)) (seqZ 0 16)) as Hall.
  { apply (bool_decide_unpack _). by vm_compute. }
  rewrite Forall_forall in Hall.
  assert (a ∈ seqZ 0 16) as Hina by (apply elem_of_seqZ; lia).
  specialize (Hall a Hina). rewrite Forall_forall in Hall.
  apply Hall, elem_of_seqZ. lia.
Qed.

(** Distinct digit values have distinct hex characters. *)
Lemma hexChar_inj (a b : Z) :
  0 ≤ a < 16 → 0 ≤ b < 16 → JS.hexChar a = JS.hexChar b → a = b.
Proof.
  intros Ha Hb Heq.
  assert (Forall (λ a, Forall (λ b,
            JS.hexChar a = JS.hexChar b → a = b) (seqZ 0 16)) (seqZ 0 16))
    as Hall.
  { apply (bool_decide_unpack _). by vm_compute. }
  rewrite Forall_forall in Hall.
  assert (a ∈ seqZ 0 16) as Hina by (apply elem_of_seqZ; lia).
  specialize (Hall a Hina). rewrite Forall_forall in Hall.
  apply Hall; [apply elem_of_seqZ; lia|done].
Qed.

Lemma hexChar_lower (n : Z) :
  JS.hexChar n ∈ list_ascii_of_string "0123456789abcdef".
Proof.
  unfold JS.hexChar. generalize (Z.to_nat n). intros k.
  do 16 (destruct k as [|k]; [by apply (bool_decide_unpack _)|]).
  by apply (bool_decide_unpack _).
Qed.

Lemma length_bytesToHex (bytes : list Z) :
  String.length (JS.bytesToHex bytes) = (2 * length bytes)%nat.
Proof. induction bytes as [|b bytes IH]; simpl; [done|]. rewrite IH. lia. Qed.

Lemma lowerHexText_bytesToHex (bytes : list Z) :
  lowerHexText (JS.bytesToHex bytes).
Proof.
  unfold lowerHexText. induction bytes as [|b bytes IH]; simpl.
  - constructor.
  - repeat (constructor; [apply hexChar_lower|]). exact IH.
Qed.

(** The bytes [crypto.randomBytes] returns. *)
Lemma isBytes_entropy (start n : nat) :
  isBytes ((λ i, entropy (start + i) mod 256) <$> seq 0 n).
Proof.
  apply Forall_fmap, Forall_forall. intros i _. simpl.
  apply Z.mod_pos_bound. lia.
Qed.

(** Splits a byte into its two hex digits, kept as unknowns in range. *)
Ltac nibbles_of b :=
  let h := fresh "h" in
  let l := fresh "l" in
  let Hh := fresh "Hh" in
  let Hl := fresh "Hl" in
  assert (0 ≤ b `div` 16 < 16) as Hh
    by (split; [apply Z.div_pos; lia|apply Z.div_lt_upper_bound; lia]);
  assert (0 ≤ b `mod` 16 < 16) as Hl by (apply Z.mod_pos_bound; lia);
  set (h := b `div` 16) in *; set (l := b `mod` 16) in *;
  clearbody h l.

(** X1. For two tokens that are the hex text of 24 bytes, as every issued
    token is, the byte arrays handed to the digest are equal exactly when
    the tokens agree on their first 25 characters: of the 192 random bits
    of a token, the first 100 reach the digest. *)
Theorem hex_tokens_same_array_iff_first_25 (bytes1 bytes2 : list Z) :
  length bytes1 = 24%nat → length bytes2 = 24%nat →
  isBytes bytes1 → isBytes bytes2 →
  accessTokenToTypedArray (JS.bytesToHex bytes1)
  = accessTokenToTypedArray (JS.bytesToHex bytes2)
  ↔ substring 0 25 (JS.bytesToHex bytes1)
    = substring 0 25 (JS.bytesToHex bytes2).
Proof.
  intros Hlen1 Hlen2 Hb1 Hb2. split.
  - do 25 (destruct bytes1 as [|? bytes1]; try discriminate Hlen1).
    do 25 (destruct bytes2 as [|? bytes2]; try discriminate Hlen2).
    clear Hlen1 Hlen2. unfold isBytes in *.
    repeat match goal with
           | Hb : Forall _ (_ :: _) |- _ =>
               let Hx := fresh "Hx" in apply Forall_cons in Hb as [Hx Hb]
           end.
    clear Hb1 Hb2.
    rewrite !accessTokenToTypedArray_table.
    cbn [fmap list_fmap seq JS.bytesToHex JS.slice substring Nat.add Nat.sub].
    repeat match goal with
           | Hx : 0 ≤ ?b < 256 |- _ => nibbles_of b; clear Hx
           end.
    rewrite !parseInt16_two_hex by assumption.
    intros Heq. simplify_eq.
    repeat match goal with
           | |- String (JS.hexChar ?x) _ = String (JS.hexChar ?y) _ =>
               replace x with y by lia; f_equal
           end.
  - intros Hpre.
    rewrite <- (accessTokenToTypedArray_prefix (JS.bytesToHex bytes1)).
    rewrite <- (accessTokenToTypedArray_prefix (JS.bytesToHex bytes2)).
    by rewrite Hpre.
Qed.

End HexTokenFacts.

Lemma hex_tokens_same_array_iff_first_25_witness :
  accessTokenToTypedArray
    (JS.bytesToHex (replicate 12 171 ++ 192 :: replicate 11 0))
  = accessTokenToTypedArray
      (JS.bytesToHex (replicate 12 171 ++ 207 :: replicate 11 255))
  ↔ substring 0 25 (JS.bytesToHex (replicate 12 171 ++ 192 :: replicate 11 0))
    = substring 0 25
        (JS.bytesToHex (replicate 12 171 ++ 207 :: replicate 11 255)).
Proof.
  apply hex_tokens_same_array_iff_first_25;
    [reflexivity|reflexivity|..];
    apply (bool_decide_unpack _); by vm_compute.
Defined.

(** ** Tokens in other spellings *)

Section TokenSpelling.
Context `{Platform}.

Lemma isWhiteSpace_lowerChar (c : ascii) :
  JS.isWhiteSpace (lowerChar c) = JS.isWhiteSpace c.
Proof. by destruct c as [[] [] [] [] [] [] [] []]. Qed.

Lemma hexDigitValue_lowerChar (c : ascii) :
  JS.hexDigitValue (lowerChar c) = JS.hexDigitValue c.
Proof. by destruct c as [[] [] [] [] [] [] [] []]. Qed.

Lemma trimStart_lowerText (s : string) :
  JS.trimStart (lowerText s) = lowerText (JS.trimStart s).
Proof.
  induction s as [|c s IH]; [done|].
  cbn [lowerText JS.trimStart]. rewrite isWhiteSpace_lowerChar.
  by destruct (JS.isWhiteSpace c).
Qed.

Lemma stripSign_lowerText (s : string) :
  JS.stripSign (lowerText s)
  = ((JS.stripSign s).1, lowerText (JS.stripSign s).2).
Proof.
  destruct s as [|c s]; [done|].
  by destruct c as [[] [] [] [] [] [] [] []].
Qed.

Lemma stripHexPrefix_lowerText (s : string) :
  JS.stripHexPrefix (lowerText s) = lowerText (JS.stripHexPrefix s).
Proof.
  destruct s as [|c1 s]; [done|].
  destruct c1 as [[] [] [] [] [] [] [] []]; try done.
  destruct s as [|c2 s]; [done|].
  by destruct c2 as [[] [] [] [] [] [] [] []].
Qed.

Lemma digitsPrefix_lowerText (s : string) :
  JS.digitsPrefix (lowerText s) = JS.digitsPrefix s.
Proof.
  induction s as [|c s IH]; [done|].
  cbn [lowerText JS.digitsPrefix]. rewrite hexDigitValue_lowerChar, IH. done.
Qed.

Lemma parseInt16_lowerText (s : string) :
  JS.parseInt16 (lowerText s) = JS.parseInt16 s.
Proof.
  unfold JS.parseInt16.
  rewrite trimStart_lowerText, stripSign_lowerText.
  destruct (JS.stripSign (JS.trimStart s)) as [sign s1]. cbn [fst snd].
  by rewrite stripHexPrefix_lowerText, digitsPrefix_lowerText.
Qed.

Lemma substring_lowerText (s : string) :
  ∀ n m, substring n m (lowerText s) = lowerText (substring n m s).
Proof.
  induction s as [|c s IH]; intros [|n] [|m]; cbn; by rewrite ?IH.
Qed.

(** X2. The digest of a token does not depend on the case of its letters:
    a token in upper case opens the same session as the token in lower
    case. *)
Theorem hashAccessToken_ignores_case (accessToken : string) :
  hashAccessToken (lowerText accessToken) = hashAccessToken accessToken.
Proof.
  unfold hashAccessToken. f_equal.
  rewrite !accessTokenToTypedArray_table.
  apply list_fmap_ext. intros ? i _. cbn beta.
  unfold JS.slice. by rewrite substring_lowerText, parseInt16_lowerText.
Qed.

(** X3. Every token [createUser] or [updateAccessToken] returns is 48
    lower-case hex characters, the hex text of 24 bytes. *)
Theorem issued_tokens_are_hex
    (name' imageUrl lineUserId' userId accessToken : string) (w : World) :
  (createUser name' imageUrl lineUserId' w).2 = Ok accessToken
  ∨ (updateAccessToken userId w).2 = Ok accessToken →
  String.length accessToken = 48%nat
  ∧ lowerHexText accessToken
  ∧ ∃ bytes,
      accessToken = JS.bytesToHex bytes
      ∧ length bytes = 24%nat ∧ isBytes bytes.
Proof.
  intros Hissued.
  assert (∃ start,
            accessToken
            = JS.bytesToHex
                ((λ i, entropy (start + i) mod 256) <$> seq 0 24)) as [start ->].
  { destruct Hissued as [Hc|Hu].
    - revert Hc.
      unfold createUser, createRandomId, saveUserImageFromUrl, saveFile,
        fileSave, createAccessToken, now, createUserDoc, randomBytes, throw,
        mbind, Async_bind, mret, Async_ret.
      destruct (fetchImage imageUrl) as [[data mimeType]|]; [|discriminate].
      cbn [firestore user drawn].
      destruct (user (firestore w) !! _); [discriminate|].
      cbn [snd]. intros [= <-]. by eexists.
    - revert Hu.
      unfold updateAccessToken, createAccessToken, updateUserTokenHash,
        randomBytes, mbind, Async_bind, mret, Async_ret.
      cbn [firestore user drawn].
      destruct (user (firestore w) !! userId); [|discriminate].
      cbn [snd]. intros [= <-]. by eexists. }
  split; [by rewrite length_bytesToHex, length_fmap, length_seq|].
  split; [apply lowerHexText_bytesToHex|].
  eexists. split; [reflexivity|].
  split; [by rewrite length_fmap, length_seq|apply isBytes_entropy].
Qed.

End TokenSpelling.

Lemma issued_tokens_are_hex_witness :
  String.length "030a11181f262d343b424950575e656c737a81888f969da4" = 48%nat
  ∧ lowerHexText "030a11181f262d343b424950575e656c737a81888f969da4".
Proof.
  destruct (@issued_tokens_are_hex Sample.platform "" "" "" "user-alice"
              "030a11181f262d343b424950575e656c737a81888f969da4"
              Sample.world0) as (Hlen & Hhex & _); [|done].
  right. by vm_compute.
Defined.

(** ** More on writing timetable cells *)

Section SetClassFacts.
Context `{Platform}.

Lemma setCell_comm week1 time1 classId1 week2 time2 classId2 g :
  (week1, time1) ≠ (week2, time2) →
  setCell week2 time2 classId2 (setCell week1 time1 classId1 g)
  = setCell week1 time1 classId1 (setCell week2 time2 classId2 g).
Proof. by destruct week1, time1, week2, time2. Qed.

Lemma setCell_overwrite week time classId1 classId2 g :
  setCell week time classId2 (setCell week time classId1 g)
  = setCell week time classId2 g.
Proof. by destruct week, time. Qed.

(** A merge write of a cell does not change which document a token
    opens. *)
Lemma head_whereEq_withCell (value id : string) (u : UserData)
    (users : gmap string UserData) week time classId :
  head (whereEq lastIssuedAccessTokenHash value users) = Some (id, u) →
  head (whereEq lastIssuedAccessTokenHash value
          (<[id := withCell week time classId u]> users))
  = Some (id, withCell week time classId u).
Proof.
  intros Hhd. pose proof (head_whereEq _ _ _ _ _ Hhd) as [Hu Hhash].
  apply head_whereEq_intro.
  - apply lookup_insert_eq.
  - exact Hhash.
  - intros id' u' Hu' Hhash'.
    destruct (decide (id' = id)) as [->|Hne]; [reflexivity|].
    rewrite lookup_insert_ne in Hu' by done.
    by apply (head_whereEq_least _ _ _ _ _ Hhd id' u').
Qed.

(** Two calls of [setClass] in a row with the same token. *)
Lemma setClass_twice (accessToken id : string) (u : UserData) (w : World)
    week1 time1 classId1 week2 time2 classId2 :
  head (whereEq lastIssuedAccessTokenHash (hashAccessToken accessToken)
          (user (firestore w))) = Some (id, u) →
  setClass accessToken week2 time2 classId2
    (setClass accessToken week1 time1 classId1 w).1
  = (mkWorld
       (mkFirestore
          (<[id := withCell week2 time2 classId2
                     (withCell week1 time1 classId1 u)]>
             (user (firestore w)))
          (lineLoginState (firestore w)))
       (bucket w) (drawn w) (clock w)
       ((journal w ++ [WSetMerge "user" id]) ++ [WSetMerge "user" id]),
     Ok (userOut id
           (withCell week2 time2 classId2
              (withCell week1 time1 classId1 u)))).
Proof.
  intros Hhd. rewrite (setClass_run _ _ _ _ _ _ _ Hhd). cbn [fst].
  rewrite (setClass_run _ _ _ _ _ id (withCell week1 time1 classId1 u)).
  - cbn [firestore user lineLoginState bucket drawn clock journal].
    by rewrite insert_insert_eq.
  - cbn [firestore user]. by apply head_whereEq_withCell.
Qed.

(** X4. [setClass] with a token that opens no session throws the
    invalid-session error and leaves the world exactly as it was: no
    document is written and nothing is journalled. *)
Theorem setClass_invalid_token
    (accessToken : string) (week : Week) (time : Time)
    (classId : option string) (w : World) (e : Error) :
  (verifyAccessTokenAndGetUserData accessToken w).2 = Throw e →
  setClass accessToken week time classId w = (w, Throw InvalidAccessToken).
Proof.
  rewrite verify_run. cbn [snd]. intros Hthrow.
  unfold setClass, mbind, Async_bind. rewrite verify_run.
  by destruct (head _) as [[id u]|].
Qed.

(** X5. A successful [setClass] writes the session's document only, and
    in it the timetable only: every other user document, the login states
    and the bucket are unchanged, the name, LINE id, image hash, token hash
    and creation time of the document stay, and exactly one merge write is
    journalled. *)
Theorem setClass_frame
    (accessToken : string) (week : Week) (time : Time)
    (classId : option string) (w : World) (session : UserOutType) :
  (verifyAccessTokenAndGetUserData accessToken w).2 = Ok session →
  ∃ w' out u u',
    setClass accessToken week time classId w = (w', Ok out)
    ∧ user (firestore w) !! o_id session = Some u
    ∧ user (firestore w') !! o_id session = Some u'
    ∧ identityOf u' = identityOf u
    ∧ lastIssuedAccessTokenHash u' = lastIssuedAccessTokenHash u
    ∧ (∀ id, id ≠ o_id session →
         user (firestore w') !! id = user (firestore w) !! id)
    ∧ lineLoginState (firestore w') = lineLoginState (firestore w)
    ∧ bucket w' = bucket w
    ∧ drawn w' = drawn w
    ∧ journal w' = (journal w ++ [WSetMerge "user" (o_id session)])%list.
Proof.
  intros Hok. destruct (verify_ok_inv _ _ _ Hok) as (id & u & Hhd & ->).
  pose proof (head_whereEq _ _ _ _ _ Hhd) as [Hu _].
  cbn [o_id userOut].
  eexists _, _, u, (withCell week time classId u).
  split; [by apply setClass_run|].
  cbn [firestore user lineLoginState bucket drawn journal].
  split; [exact Hu|]. split; [apply lookup_insert_eq|].
  do 2 (split; [reflexivity|]).
  split; [intros id' Hne; by rewrite lookup_insert_ne|].
  by repeat split.
Qed.

(** X6. Writes to two different cells commute: with a token that opens a
    session, the stored documents after [setClass] on one cell and then on
    another are the same in either order. *)
Theorem setClass_commutes
    (accessToken : string) (w : World) (session : UserOutType)
    week1 time1 classId1 week2 time2 classId2 :
  (verifyAccessTokenAndGetUserData accessToken w).2 = Ok session →
  (week1, time1) ≠ (week2, time2) →
  ∃ w12 w21 out12 out21,
    setClass accessToken week2 time2 classId2
      (setClass accessToken week1 time1 classId1 w).1 = (w12, Ok out12)
    ∧ setClass accessToken week1 time1 classId1
        (setClass accessToken week2 time2 classId2 w).1 = (w21, Ok out21)
    ∧ firestore w12 = firestore w21
    ∧ out12 = out21.
Proof.
  intros Hok Hne. destruct (verify_ok_inv _ _ _ Hok) as (id & u & Hhd & ->).
  eexists _, _, _, _.
  split; [by apply setClass_twice|].
  split; [by apply setClass_twice|].
  assert (withCell week2 time2 classId2 (withCell week1 time1 classId1 u)
          = withCell week1 time1 classId1 (withCell week2 time2 classId2 u))
    as ->.
  { unfold withCell. cbn. by rewrite setCell_comm. }
  by split.
Qed.

(** X7. The last write to a cell wins: after [setClass] with one value and
    then with another on the same cell, the stored documents and the
    snapshot returned are those of the second call alone. *)
Theorem setClass_last_write_wins
    (accessToken : string) (w : World) (session : UserOutType)
    week time classId1 classId2 :
  (verifyAccessTokenAndGetUserData accessToken w).2 = Ok session →
  ∃ w12 w2 out,
    setClass accessToken week time classId2
      (setClass accessToken week time classId1 w).1 = (w12, Ok out)
    ∧ setClass accessToken week time classId2 w = (w2, Ok out)
    ∧ firestore w12 = firestore w2
    ∧ cell week time (o_classInTimeTable out) = classId2.
Proof.
  intros Hok. destruct (verify_ok_inv _ _ _ Hok) as (id & u & Hhd & ->).
  assert (withCell week time classId2 (withCell week time classId1 u)
          = withCell week time classId2 u) as Hlast.
  { unfold withCell. cbn. by rewrite setCell_overwrite. }
  eexists _, _, _.
  split; [rewrite (setClass_twice _ _ _ _ _ _ _ _ _ _ Hhd), Hlast; reflexivity|].
  split; [by apply setClass_run|].
  split; [reflexivity|]. apply cell_setCell_eq.
Qed.

(** X8. [updateAccessToken] for an id that has no user document throws
    Firestore's not-found error: no token is returned and nothing is
    written, though 24 random bytes are used up. *)
Theorem updateAccessToken_unknown_user (userId : string) (w : World) :
  user (firestore w) !! userId = None →
  ∃ w',
    updateAccessToken userId w = (w', Throw (NotFound "user" userId))
    ∧ firestore w' = firestore w
    ∧ bucket w' = bucket w
    ∧ journal w' = journal w
    ∧ drawn w' = (drawn w + 24)%nat.
Proof.
  intros Hno. eexists.
  unfold updateAccessToken, createAccessToken, updateUserTokenHash,
    randomBytes, mbind, Async_bind, mret, Async_ret.
  cbn [firestore user]. rewrite Hno. by repeat split.
Qed.

End SetClassFacts.

Lemma setClass_invalid_token_witness :
  @setClass Sample.platform "not-a-token" monday class1 (Some "class-logic")
    Sample.world0
  = (Sample.world0, Throw InvalidAccessToken).
Proof.
  apply (@setClass_invalid_token Sample.platform _ _ _ _ _ InvalidAccessToken).
  by vm_compute.
Defined.

Lemma setClass_frame_witness :
  ∃ w' out,
    @setClass Sample.platform Sample.tokenA monday class3
      (Some "class-logic") Sample.world0 = (w', Ok out)
    ∧ user (firestore w') !! "user-bob" = Some Sample.bob
    ∧ journal w' = [WSetMerge "user" "user-alice"].
Proof.
  destruct (@setClass_frame Sample.platform Sample.tokenA monday class3
              (Some "class-logic") Sample.world0
              (userOut "user-alice" Sample.alice))
    as (w' & out & u & u' & Hrun & _ & _ & _ & _ & Hothers & _ & _ & _ & Hj);
    [by vm_compute|].
  exists w', out. split; [exact Hrun|].
  split; [|exact Hj].
  rewrite Hothers by done. by vm_compute.
Defined.

Lemma setClass_commutes_witness :
  ∃ w12 w21 out12 out21,
    @setClass Sample.platform Sample.tokenC friday class1 (Some "class-a")
      (@setClass Sample.platform Sample.tokenC monday class2
         (Some "class-b") Sample.world0).1 = (w12, Ok out12)
    ∧ @setClass Sample.platform Sample.tokenC monday class2 (Some "class-b")
        (@setClass Sample.platform Sample.tokenC friday class1
           (Some "class-a") Sample.world0).1 = (w21, Ok out21)
    ∧ firestore w12 = firestore w21
    ∧ out12 = out21.
Proof.
  apply (@setClass_commutes Sample.platform Sample.tokenC Sample.world0
           (userOut "user-bob" Sample.bob));
    by vm_compute.
Defined.

Lemma setClass_last_write_wins_witness :
  ∃ w12 w2 out,
    @setClass Sample.platform Sample.tokenC friday class1 None
      (@setClass Sample.platform Sample.tokenC friday class1
         (Some "class-a") Sample.world0).1 = (w12, Ok out)
    ∧ @setClass Sample.platform Sample.tokenC friday class1 None
        Sample.world0 = (w2, Ok out)
    ∧ firestore w12 = firestore w2
    ∧ cell friday class1 (o_classInTimeTable out) = None.
Proof.
  apply (@setClass_last_write_wins Sample.platform Sample.tokenC
           Sample.world0 (userOut "user-bob" Sample.bob)).
  by vm_compute.
Defined.

Lemma updateAccessToken_unknown_user_witness :
  ∃ w',
    @updateAccessToken Sample.platform "user-carol" Sample.world0
    = (w', Throw (NotFound "user" "user-carol"))
    ∧ firestore w' = firestore Sample.world0.
Proof.
  destruct (@updateAccessToken_unknown_user Sample.platform "user-carol"
              Sample.world0) as (w' & Hrun & Hfs & _); [by vm_compute|].
  by exists w'.
Defined.

(** ** More on creating users and issuing login states *)

Section CreateUserMore.
Context `{Platform}.

(** [createUser] in full: the random id, the download of the image, the
    file saved under its hash, the random token and the new document. *)
Lemma createUser_run (name' imageUrl lineUserId' : string) (w : World) :
  let userId :=
    JS.bytesToHex ((λ i, entropy (drawn w + i) mod 256) <$> seq 0 16) in
  let accessToken :=
    JS.bytesToHex ((λ i, entropy (drawn w + 16 + i) mod 256) <$> seq 0 24) in
  createUser name' imageUrl lineUserId' w
  = match fetchImage imageUrl with
    | None =>
        (mkWorld (firestore w) (bucket w) (drawn w + 16) (clock w)
           (journal w),
         Throw RequestFailed)
    | Some (data, mimeType) =>
        let hash := createHashFromBuffer data mimeType in
        match user (firestore w) !! userId with
        | Some _ =>
            (mkWorld (firestore w) (<[hash := (data, mimeType)]> (bucket w))
               (drawn w + 16 + 24) (clock w)
               (journal w ++ [WFileSave hash]),
             Throw (AlreadyExists "user" userId))
        | None =>
            (mkWorld
               (mkFirestore
                  (<[userId :=
                       mkUserData name' lineUserId' hash
                         (hashAccessToken accessToken)
                         (mkClassOfWeek emptyDay emptyDay emptyDay emptyDay
                            emptyDay emptyDay)
                         (clock w)]>
                     (user (firestore w)))
                  (lineLoginState (firestore w)))
               (<[hash := (data, mimeType)]> (bucket w))
               (drawn w + 16 + 24) (clock w)
               ((journal w ++ [WFileSave hash]) ++ [WCreate "user" userId]),
             Ok accessToken)
        end
    end.
Proof.
  unfold createUser, createRandomId, saveUserImageFromUrl, saveFile,
    fileSave, createAccessToken, now, createUserDoc, randomBytes, throw,
    mbind, Async_bind, mret, Async_ret.
  destruct (fetchImage imageUrl) as [[data mimeType]|]; [|reflexivity].
  cbn [firestore user drawn bucket clock journal].
  by destruct (user (firestore w) !! _).
Qed.

Lemma getUserFromLineAccountId_run (lineUserId' : string) (w : World) :
  getUserFromLineAccountId lineUserId' w
  = (w, Ok (head (whereEq lineUserId lineUserId' (user (firestore w))))).
Proof. reflexivity. Qed.

(** X9. A user that [createUser] has just created can log in: when no
    earlier user stores the digest of the returned token, that token opens
    the session of the new user, with the given name and an empty
    timetable; and when no earlier user has the LINE id,
    [getUserFromLineAccountId] finds the new user. *)
Theorem createUser_then_verify
    (name' imageUrl lineUserId' accessToken : string) (w w' : World) :
  createUser name' imageUrl lineUserId' w = (w', Ok accessToken) →
  ∃ userId u,
    user (firestore w') !! userId = Some u
    ∧ name u = name'
    ∧ lineUserId u = lineUserId'
    ∧ ((∀ id v, user (firestore w) !! id = Some v →
          lastIssuedAccessTokenHash v ≠ hashAccessToken accessToken) →
       verifyAccessTokenAndGetUserData accessToken w'
       = (w', Ok (mkUserOut userId name' (imageFileHash u)
                    (mkClassOfWeek emptyDay emptyDay emptyDay emptyDay
                       emptyDay emptyDay))))
    ∧ ((∀ id v, user (firestore w) !! id = Some v →
          lineUserId v ≠ lineUserId') →
       getUserFromLineAccountId lineUserId' w' = (w', Ok (Some (userId, u)))).
Proof.
  pose proof (createUser_run name' imageUrl lineUserId' w) as Hrun.
  cbv zeta in Hrun.
  set (newId := JS.bytesToHex (_ <$> seq 0 16)) in Hrun.
  set (newToken := JS.bytesToHex (_ <$> seq 0 24)) in Hrun.
  clearbody newId newToken. rewrite Hrun. clear Hrun.
  destruct (fetchImage imageUrl) as [[data mimeType]|]; [|discriminate].
  destruct (user (firestore w) !! newId) as [|] eqn:Hfresh; [discriminate|].
  intros [= <- <-].
  set (u := mkUserData name' lineUserId' _ _ _ _).
  exists newId, u.
  cbn [firestore user]. split; [apply lookup_insert_eq|].
  do 2 (split; [reflexivity|]). split.
  - intros Hothers. apply (verify_unique_match _ newId u).
    + cbn [firestore user]. apply lookup_insert_eq.
    + reflexivity.
    + cbn [firestore user]. intros id' u' Hne Hu'.
      rewrite lookup_insert_ne in Hu' by done. by apply (Hothers id').
  - intros Hothers. rewrite getUserFromLineAccountId_run.
    cbn [firestore user]. do 2 f_equal.
    rewrite (whereEq_unique _ _ _ _ _ (lookup_insert_eq _ _ _));
      [reflexivity|reflexivity|].
    intros id' u' Hu' Hl.
    destruct (decide (id' = newId)) as [|Hne]; [done|].
    rewrite lookup_insert_ne in Hu' by done. by destruct (Hothers id' u').
Qed.


(** X11. A login state that [generateAndWriteLineLoginState] returns is 32
    lower-case hex characters and was not pending before; it is pending
    afterwards, with the clock as creation time, and no user document
    changes.  When the random value is pending already the call throws
    Firestore's already-exists error and the pending state is not
    overwritten. *)
Theorem generateAndWriteLineLoginState_result (w w' : World)
    (r : Result string) :
  generateAndWriteLineLoginState w = (w', r) →
  match r with
  | Ok state =>
      String.length state = 32%nat
      ∧ lowerHexText state
      ∧ lineLoginState (firestore w) !! state = None
      ∧ lineLoginState (firestore w')
        = <[state := mkStateData (clock w)]> (lineLoginState (firestore w))
      ∧ user (firestore w') = user (firestore w)
  | Throw e =>
      ∃ state,
        e = AlreadyExists "lineLoginState" state
        ∧ is_Some (lineLoginState (firestore w) !! state)
        ∧ firestore w' = firestore w
        ∧ journal w' = journal w
  end.
Proof.
  unfold generateAndWriteLineLoginState, createRandomId, now,
    createLineLoginState, randomBytes, mbind, Async_bind, mret, Async_ret.
  cbn [firestore lineLoginState].
  set (newState := JS.bytesToHex _).
  assert (String.length newState = 32%nat ∧ lowerHexText newState)
    as [Hlen Hhex].
  { unfold newState. split; [|apply lowerHexText_bytesToHex].
    by rewrite length_bytesToHex, length_fmap, length_seq. }
  clearbody newState.
  destruct (lineLoginState (firestore w) !! newState) as [pending|] eqn:Hfresh.
  - intros [= <- <-]. exists newState. split; [reflexivity|].
    split; [by rewrite Hfresh|]. by split.
  - intros [= <- <-]. by repeat split.
Qed.

End CreateUserMore.

Lemma createUser_then_verify_witness :
  ∃ w' accessToken session,
    @createUser Sample.platform "Hanako" "https://profile.line.me/p.png"
      "U1234" Sample.world0 = (w', Ok accessToken)
    ∧ (@verifyAccessTokenAndGetUserData Sample.platform accessToken w').2
      = Ok session
    ∧ o_name session = "Hanako".
Proof.
  assert (∃ w',
            @createUser Sample.platform "Hanako"
              "https://profile.line.me/p.png" "U1234" Sample.world0
            = (w', Ok "737a81888f969da4abb2b9c0c7ced5dce3eaf1f8ff060d14"))
    as [w' Hrun] by (eexists; by vm_compute).
  destruct (@createUser_then_verify Sample.platform _ _ _ _ _ _ Hrun)
    as (userId & u & _ & _ & _ & Hverify & _).
  exists w', "737a81888f969da4abb2b9c0c7ced5dce3eaf1f8ff060d14".
  eexists. split; [exact Hrun|]. rewrite Hverify.
  - split; reflexivity.
  - intros id v [[-> ->]|[-> ->]]%sample_users; by vm_compute.
Defined.


Lemma generateAndWriteLineLoginState_result_witness :
  ∃ w' state,
    @generateAndWriteLineLoginState Sample.platform Sample.world0
    = (w', Ok state)
    ∧ String.length state = 32%nat
    ∧ lineLoginState (firestore Sample.world0) !! state = None.
Proof.
  assert (∃ w',
            @generateAndWriteLineLoginState Sample.platform Sample.world0
            = (w', Ok "030a11181f262d343b424950575e656c")) as [w' Hgen]
    by (eexists; by vm_compute).
  pose proof (@generateAndWriteLineLoginState_result Sample.platform _ _ _ Hgen)
    as (Hlen & _ & Hfresh & _).
  by exists w', "030a11181f262d343b424950575e656c".
Defined.

(** ** What stays in a user document *)

Section UserPartFacts.
Context `{Platform}.
Context {B : Type} (part : UserData → B).

Lemma keepsUserPart_ret {A} (a : A) : keepsUserPart part (mret a).
Proof. intros w id u Hu. by exists u. Qed.

Lemma keepsUserPart_throw {A} (e : Error) : keepsUserPart part (@throw A e).
Proof. intros w id u Hu. by exists u. Qed.

Lemma keepsUserPart_bind {A C} (m : Async A) (f : A → Async C) :
  keepsUserPart part m → (∀ a, keepsUserPart part (f a)) →
  keepsUserPart part (m ≫= f).
Proof.
  intros Hm Hf w id u Hu. destruct (Hm w id u Hu) as (u1 & Hu1 & Hp1).
  unfold mbind, Async_bind. destruct (m w) as [w1 [a|e]]; cbn [fst] in *.
  - destruct (Hf a w1 id u1 Hu1) as (u2 & Hu2 & Hp2).
    exists u2. split; [exact Hu2|congruence].
  - by exists u1.
Qed.

(** An operation that leaves the user collection as it is. *)
Lemma keepsUserPart_same {A} (m : Async A) :
  (∀ w, user (firestore (m w).1) = user (firestore w)) →
  keepsUserPart part m.
Proof. intros Hsame w id u Hu. exists u. by rewrite Hsame. Qed.

Lemma keepsUserPart_randomBytes n : keepsUserPart part (randomBytes n).
Proof. by apply keepsUserPart_same. Qed.

Lemma keepsUserPart_now : keepsUserPart part now.
Proof. by apply keepsUserPart_same. Qed.

Lemma keepsUserPart_fileSave hash buffer mimeType :
  keepsUserPart part (fileSave hash buffer mimeType).
Proof. by apply keepsUserPart_same. Qed.

Lemma keepsUserPart_queryUser field value :
  keepsUserPart part (queryUser field value).
Proof. by apply keepsUserPart_same. Qed.

Lemma keepsUserPart_getLineLoginState id :
  keepsUserPart part (getLineLoginState id).
Proof. by apply keepsUserPart_same. Qed.

Lemma keepsUserPart_deleteLineLoginState id :
  keepsUserPart part (deleteLineLoginState id).
Proof. by apply keepsUserPart_same. Qed.

Lemma keepsUserPart_createLineLoginState id data :
  keepsUserPart part (createLineLoginState id data).
Proof.
  apply keepsUserPart_same. intros w. unfold createLineLoginState.
  by destruct (lineLoginState (firestore w) !! id).
Qed.

(** [create] writes a document only where there was none. *)
Lemma keepsUserPart_createUserDoc id data :
  keepsUserPart part (createUserDoc id data).
Proof.
  intros w id' u Hu. exists u. split; [|reflexivity].
  unfold createUserDoc.
  destruct (user (firestore w) !! id) eqn:Hid; [exact Hu|].
  cbn [fst firestore user]. rewrite lookup_insert_ne; [exact Hu|].
  intros ->. congruence.
Qed.

Lemma keepsUserPart_updateUserTokenHash id hash :
  (∀ u, part (withTokenHash hash u) = part u) →
  keepsUserPart part (updateUserTokenHash id hash).
Proof.
  intros Hpart w id' u Hu. unfold updateUserTokenHash.
  destruct (user (firestore w) !! id) as [v|] eqn:Hid; [|by exists u].
  cbn [fst firestore user].
  destruct (decide (id' = id)) as [->|Hne].
  - rewrite lookup_insert_eq. eexists. split; [reflexivity|].
    assert (v = u) as -> by congruence. apply Hpart.
  - rewrite lookup_insert_ne by done. by exists u.
Qed.

Lemma keepsUserPart_mergeUserClass id week time classId :
  (∀ u, part (withCell week time classId u) = part u) →
  keepsUserPart part (mergeUserClass id week time classId).
Proof.
  intros Hpart w id' u Hu. unfold mergeUserClass.
  destruct (user (firestore w) !! id) as [v|] eqn:Hid; [|by exists u].
  cbn [fst firestore user].
  destruct (decide (id' = id)) as [->|Hne].
  - rewrite lookup_insert_eq. eexists. split; [reflexivity|].
    assert (v = u) as -> by congruence. apply Hpart.
  - rewrite lookup_insert_ne by done. by exists u.
Qed.

End UserPartFacts.

Section UserPartOfCalls.
Context `{Platform}.
Context {B : Type} (part : UserData → B).

Create HintDb userpart.

Hint Resolve keepsUserPart_ret keepsUserPart_throw keepsUserPart_randomBytes
  keepsUserPart_now keepsUserPart_fileSave keepsUserPart_queryUser
  keepsUserPart_getLineLoginState keepsUserPart_deleteLineLoginState
  keepsUserPart_createLineLoginState keepsUserPart_createUserDoc
  keepsUserPart_updateUserTokenHash keepsUserPart_mergeUserClass : userpart.

(** Splits an operation at its binds and case distinctions down to the
    primitive operations. *)
Ltac keeps_user_part :=
  repeat first
    [ progress auto with userpart
    | apply keepsUserPart_bind; [|intros ?]
    | match goal with
      | |- keepsUserPart _ (match ?x with _ => _ end) => destruct x
      | |- keepsUserPart _ (if ?b then _ else _) => destruct b
      end ].

Lemma keepsUserPart_generateAndWriteLineLoginState :
  keepsUserPart part generateAndWriteLineLoginState.
Proof.
  unfold generateAndWriteLineLoginState, createRandomId. keeps_user_part.
Qed.

Lemma keepsUserPart_checkExistsAndDeleteState state :
  keepsUserPart part (checkExistsAndDeleteState state).
Proof. unfold checkExistsAndDeleteState. keeps_user_part. Qed.

Lemma keepsUserPart_createUser name' imageUrl lineUserId' :
  keepsUserPart part (createUser name' imageUrl lineUserId').
Proof.
  unfold createUser, createRandomId, saveUserImageFromUrl, saveFile,
    createAccessToken.
  keeps_user_part.
Qed.

Lemma keepsUserPart_createAccessTokenUrl accessToken :
  keepsUserPart part (createAccessTokenUrl accessToken).
Proof. unfold createAccessTokenUrl, Data.urlFrom. keeps_user_part. Qed.

Lemma keepsUserPart_verify accessToken :
  keepsUserPart part (verifyAccessTokenAndGetUserData accessToken).
Proof. unfold verifyAccessTokenAndGetUserData. keeps_user_part. Qed.

(** The operations that write a token hash keep every part of a document
    that does not depend on the token hash. *)
Section TokenHashFree.
Hypothesis part_free : ∀ hash u, part (withTokenHash hash u) = part u.

Lemma keepsUserPart_updateAccessToken userId :
  keepsUserPart part (updateAccessToken userId).
Proof. unfold updateAccessToken, createAccessToken. keeps_user_part. Qed.

Lemma keepsUserPart_lineLoginCallback code state :
  keepsUserPart part (lineLoginCallback code state).
Proof.
  pose proof keepsUserPart_checkExistsAndDeleteState.
  pose proof keepsUserPart_createUser.
  pose proof keepsUserPart_updateAccessToken.
  pose proof keepsUserPart_createAccessTokenUrl.
  unfold lineLoginCallback, requestIdToken, verifyAccessTokenAndGetData,
    getUserFromLineAccountId.
  keeps_user_part.
Qed.

End TokenHashFree.

(** [setClass] keeps every part of a document that does not depend on the
    timetable. *)
Lemma keepsUserPart_setClass accessToken week time classId :
  (∀ u, part (withCell week time classId u) = part u) →
  keepsUserPart part (setClass accessToken week time classId).
Proof.
  intros Hfree. pose proof keepsUserPart_verify.
  unfold setClass. keeps_user_part.
Qed.

End UserPartOfCalls.

Section CallInvariants.
Context `{Platform}.

(** A part of the user documents that every call of a kind keeps is kept by
    every sequence of calls of that kind. *)
Lemma runCalls_keeps {B} (part : UserData → B) (allowed : Call → bool) :
  (∀ c w id u,
     allowed c = true → user (firestore w) !! id = Some u →
     ∃ u', user (firestore (runCall c w).1) !! id = Some u'
           ∧ part u' = part u) →
  ∀ cs w id u,
    Forall (λ c, allowed c = true) cs →
    user (firestore w) !! id = Some u →
    ∃ u', user (firestore (runCalls cs w).1) !! id = Some u'
          ∧ part u' = part u.
Proof.
  intros Hstep cs. induction cs as [|c cs IH]; intros w id u Hall Hu.
  - by exists u.
  - apply Forall_cons in Hall as [Hc Hall]. cbn [runCalls].
    destruct (Hstep c w id u Hc Hu) as (u1 & Hu1 & Hp1).
    destruct (runCall c w) as [w1 issued]. cbn [fst] in Hu1.
    destruct (IH w1 id u1 Hall Hu1) as (u2 & Hu2 & Hp2).
    destruct (runCalls cs w1) as [w2 more]. cbn [fst] in *.
    exists u2. split; [exact Hu2|congruence].
Qed.

(** One call keeps a part that depends neither on the token hash nor on
    the timetable. *)
Lemma runCall_keeps_free {B} (part : UserData → B) :
  (∀ hash u, part (withTokenHash hash u) = part u) →
  (∀ week time classId u, part (withCell week time classId u) = part u) →
  ∀ c w id u,
    user (firestore w) !! id = Some u →
    ∃ u', user (firestore (runCall c w).1) !! id = Some u' ∧ part u' = part u.
Proof.
  intros Hhash Hcell c w id u Hu.
  destruct c; cbn [runCall].
  - pose proof (keepsUserPart_generateAndWriteLineLoginState part w id u Hu)
      as Hk.
    by destruct (generateAndWriteLineLoginState w) as [w1 [s|e]].
  - by apply (keepsUserPart_checkExistsAndDeleteState part).
  - by apply (keepsUserPart_createUser part).
  - by apply (keepsUserPart_updateAccessToken part Hhash).
  - by apply (keepsUserPart_setClass part).
  - by apply (keepsUserPart_lineLoginCallback part Hhash).
Qed.

(** X12. No sequence of calls ever removes a user document or changes its
    name, LINE id, image hash or creation time. *)
Theorem user_identity_is_kept
    (calls : list Call) (w : World) (id : string) (u : UserData) :
  user (firestore w) !! id = Some u →
  ∃ u',
    user (firestore (runCalls calls w).1) !! id = Some u'
    ∧ name u' = name u
    ∧ lineUserId u' = lineUserId u
    ∧ imageFileHash u' = imageFileHash u
    ∧ createdAt u' = createdAt u.
Proof.
  intros Hu.
  destruct (runCalls_keeps identityOf (λ _, true)
              (λ c w id u _, runCall_keeps_free identityOf
                               (λ _ _, eq_refl) (λ _ _ _ _, eq_refl) c w id u)
              calls w id u) as (u' & Hu' & Hid).
  - by apply Forall_forall.
  - exact Hu.
  - exists u'. split; [exact Hu'|].
    unfold identityOf in Hid. by simplify_eq.
Qed.

(** X13. Only [setClass] writes timetables and only the calls that issue
    tokens write token hashes: a sequence of calls without [setClass] keeps
    every user's timetable, and a sequence of calls without the callback,
    [createUser] and [updateAccessToken] keeps every user's token hash. *)
Theorem timetable_and_token_hash_writers
    (calls : list Call) (w : World) (id : string) (u : UserData) :
  user (firestore w) !! id = Some u →
  (Forall (λ c, isSetClass c = false) calls →
   ∃ u', user (firestore (runCalls calls w).1) !! id = Some u'
         ∧ classInTimeTable u' = classInTimeTable u)
  ∧ (Forall (λ c, issuesToken c = false) calls →
     ∃ u', user (firestore (runCalls calls w).1) !! id = Some u'
           ∧ lastIssuedAccessTokenHash u' = lastIssuedAccessTokenHash u).
Proof.
  intros Hu. split; intros Hcalls.
  - apply (runCalls_keeps classInTimeTable (λ c, negb (isSetClass c)));
      [|by eapply Forall_impl; [exact Hcalls|intros c ->]|exact Hu].
    clear. intros c w id u Hc Hu. destruct c; try discriminate Hc;
      cbn [runCall].
    + pose proof (keepsUserPart_generateAndWriteLineLoginState
                    classInTimeTable w id u Hu) as Hk.
      by destruct (generateAndWriteLineLoginState w) as [w1 [s|e]].
    + by apply (keepsUserPart_checkExistsAndDeleteState classInTimeTable).
    + by apply (keepsUserPart_createUser classInTimeTable).
    + by apply (keepsUserPart_updateAccessToken classInTimeTable).
    + by apply (keepsUserPart_lineLoginCallback classInTimeTable).
  - apply (runCalls_keeps lastIssuedAccessTokenHash
             (λ c, negb (issuesToken c)));
      [|by eapply Forall_impl; [exact Hcalls|intros c ->]|exact Hu].
    clear. intros c w id u Hc Hu. destruct c; try discriminate Hc;
      cbn [runCall].
    + pose proof (keepsUserPart_generateAndWriteLineLoginState
                    lastIssuedAccessTokenHash w id u Hu) as Hk.
      by destruct (generateAndWriteLineLoginState w) as [w1 [s|e]].
    + by apply (keepsUserPart_checkExistsAndDeleteState
                  lastIssuedAccessTokenHash).
    + by apply (keepsUserPart_setClass lastIssuedAccessTokenHash).
Qed.

End CallInvariants.


Lemma user_identity_is_kept_witness :
  ∃ u',
    user (firestore
            (@runCalls Sample.platform
               [CallSetClass Sample.tokenA monday class1 (Some "class-logic");
                CallUpdateAccessToken "user-alice";
                CallLoginCallback (UString "code") (UString "state-1")]
               Sample.world0).1) !! "user-alice" = Some u'
    ∧ name u' = "Alice"
    ∧ lineUserId u' = "U-alice".
Proof.
  destruct (@user_identity_is_kept Sample.platform
              [CallSetClass Sample.tokenA monday class1 (Some "class-logic");
               CallUpdateAccessToken "user-alice";
               CallLoginCallback (UString "code") (UString "state-1")]
              Sample.world0 "user-alice" Sample.alice)
    as (u' & Hu' & Hname & Hline & _); [by vm_compute|].
  exists u'. split; [exact Hu'|]. split; [exact Hname|exact Hline].
Defined.

Lemma timetable_and_token_hash_writers_witness :
  ∃ u',
    user (firestore
            (@runCalls Sample.platform
               [CallUpdateAccessToken "user-alice"; CallGenerateState]
               Sample.world0).1) !! "user-alice" = Some u'
    ∧ classInTimeTable u' = Sample.grid0.
Proof.
  destruct (@timetable_and_token_hash_writers Sample.platform
              [CallUpdateAccessToken "user-alice"; CallGenerateState]
              Sample.world0 "user-alice" Sample.alice)
    as [Hgrid _]; [by vm_compute|].
  apply Hgrid. repeat constructor.
Defined.

(** ** URL encoding *)

Section EncodeFacts.

Lemma string_app_cons (x : ascii) (a b : string) :
  String x a +:+ b = String x (a +:+ b).
Proof. reflexivity. Qed.

Lemma string_app_assoc (a b c : string) : (a +:+ b) +:+ c = a +:+ (b +:+ c).
Proof.
  induction a as [|x a IH]; [done|]. by rewrite !string_app_cons, IH.
Qed.

Lemma string_app_nil_r (a : string) : a +:+ "" = a.
Proof.
  induction a as [|x a IH]; [done|]. by rewrite string_app_cons, IH.
Qed.

Lemma list_ascii_of_string_app (a b : string) :
  list_ascii_of_string (a +:+ b)
  = (list_ascii_of_string a ++ list_ascii_of_string b)%list.
Proof.
  induction a as [|x a IH]; [done|].
  rewrite string_app_cons. cbn [list_ascii_of_string app]. by rewrite IH.
Qed.

Lemma replaceAll_app (c : ascii) (by' a b : string) :
  Data.replaceAll c by' (a +:+ b)
  = Data.replaceAll c by' a +:+ Data.replaceAll c by' b.
Proof.
  induction a as [|x a IH]; [done|].
  rewrite string_app_cons. cbn [Data.replaceAll].
  by rewrite IH, string_app_assoc.
Qed.

(** The encoding works character by character. *)
Lemma encodeURIComponent_cons (c : ascii) (rest : string) :
  Data.encodeURIComponent (String c rest)
  = Data.encodeURIComponent (String c EmptyString)
    +:+ Data.encodeURIComponent rest.
Proof.
  cbn [Data.encodeURIComponent]. by rewrite string_app_nil_r.
Qed.

Lemma encodeURIComponentRFC3986_cons (c : ascii) (rest : string) :
  Data.encodeURIComponentRFC3986 (String c rest)
  = Data.encodeURIComponentRFC3986 (String c EmptyString)
    +:+ Data.encodeURIComponentRFC3986 rest.
Proof.
  unfold Data.encodeURIComponentRFC3986.
  rewrite encodeURIComponent_cons. by rewrite !replaceAll_app.
Qed.

(** X14. Whatever the text, [encodeURIComponentRFC3986] writes letters,
    digits, [-], [_], [.], [~] and [%] only: none of the characters that
    separate the parts of a URL or of a query, and none of [!], [*], the
    apostrophe, [(] and [)]. *)
Theorem encodeURIComponentRFC3986_safe (text : string) :
  urlSafeText (Data.encodeURIComponentRFC3986 text).
Proof.
  unfold urlSafeText. induction text as [|c text IH]; [constructor|].
  rewrite encodeURIComponentRFC3986_cons, list_ascii_of_string_app.
  apply Forall_app. split; [|exact IH]. clear.
  destruct c as [[] [] [] [] [] [] [] []];
    apply (bool_decide_unpack _); by vm_compute.
Qed.

(** The decoder undoes the encoding. *)
Lemma decodeRFC3986_encode (text : string) :
  decodeRFC3986 (Data.encodeURIComponentRFC3986 text) = text.
Proof.
  induction text as [|c text IH]; [done|].
  rewrite encodeURIComponentRFC3986_cons.
  transitivity (String c (decodeRFC3986 (Data.encodeURIComponentRFC3986 text)));
    [|by rewrite IH].
  generalize (Data.encodeURIComponentRFC3986 text). clear. intros rest.
  by destruct c as [[] [] [] [] [] [] [] []].
Qed.

(** X15. [encodeURIComponentRFC3986] loses nothing: two different texts
    are never encoded alike, so two different keys or values of a query
    never collide. *)
Theorem encodeURIComponentRFC3986_inj (text1 text2 : string) :
  Data.encodeURIComponentRFC3986 text1 = Data.encodeURIComponentRFC3986 text2 →
  text1 = text2.
Proof.
  intros Heq.
  rewrite <- (decodeRFC3986_encode text1), <- (decodeRFC3986_encode text2).
  by rewrite Heq.
Qed.

(** Hex text is encoded as itself. *)
Lemma encodeURIComponentRFC3986_hex (text : string) :
  lowerHexText text → Data.encodeURIComponentRFC3986 text = text.
Proof.
  unfold lowerHexText. induction text as [|c text IH]; [done|].
  cbn [list_ascii_of_string]. intros [Hc Htext]%Forall_cons.
  rewrite encodeURIComponentRFC3986_cons, IH by done.
  cbn in Hc. rewrite !elem_of_cons, elem_of_nil in Hc.
  repeat (destruct Hc as [->|Hc]; [reflexivity|]). done.
Qed.


End EncodeFacts.

Lemma encodeURIComponentRFC3986_inj_witness :
  Data.encodeURIComponentRFC3986 "a b&c" = "a%20b%26c"
  ∧ "a b&c" = decodeRFC3986 "a%20b%26c".
Proof.
  split; [reflexivity|].
  apply encodeURIComponentRFC3986_inj. reflexivity.
Defined.

(** ** More on the login callback *)

Section CallbackMore.
Context `{Platform}.

Lemma lineLoginCallback_run (code state : string) (w : World) :
  lineLoginCallback (UString code) (UString state) w
  = match lineLoginState (firestore w) !! state with
    | None => (w, Ok (StatusSend 400 (unknownStateBody state)))
    | Some _ =>
        completeLogin code
          (mkWorld
             (mkFirestore (user (firestore w))
                (delete state (lineLoginState (firestore w))))
             (bucket w) (drawn w) (clock w)
             (journal w ++ [WDelete "lineLoginState" state]))
    end.
Proof.
  unfold lineLoginCallback. unfold mbind at 1. unfold Async_bind at 1.
  rewrite checkExistsAndDeleteState_run.
  by destruct (lineLoginState (firestore w) !! state).
Qed.

(** The token request and the check of the id token do not look at the
    world. *)
Lemma requestIdToken_any_world (code idToken : string) (w : World) :
  (requestIdToken code w).2 = Ok idToken →
  ∀ w', requestIdToken code w' = (w', Ok idToken).
Proof.
  unfold requestIdToken. destruct (postLineToken _); [|discriminate].
  by intros [= ->].
Qed.

Lemma requestIdToken_throws (code : string) (w : World) (e : Error) :
  (requestIdToken code w).2 = Throw e →
  ∀ w', requestIdToken code w' = (w', Throw e).
Proof.
  unfold requestIdToken. destruct (postLineToken _); [discriminate|].
  by intros [= <-].
Qed.

Lemma verifyAccessTokenAndGetData_any_world
    (idToken : string) (w w' : World) :
  verifyAccessTokenAndGetData idToken w'
  = (w', (verifyAccessTokenAndGetData idToken w).2).
Proof.
  unfold verifyAccessTokenAndGetData.
  destruct (jwtVerify _ _) as [[[iss|] [sub|] [name'|] [picture|]]|];
    try reflexivity.
  cbn. destruct (decide _); [|reflexivity].
  by destruct (newURL picture).
Qed.

(** The id token was verified, and was issued by LINE. *)
Lemma verifyAccessTokenAndGetData_ok
    (idToken : string) (w : World) (lineData : LineData) :
  (verifyAccessTokenAndGetData idToken w).2 = Ok lineData →
  ∃ decoded picture,
    jwtVerify idToken lineLoginChannelSecret = Some decoded
    ∧ d_iss decoded = UString "https://access.line.me"
    ∧ d_sub decoded = UString (l_sub lineData)
    ∧ d_name decoded = UString (l_name lineData)
    ∧ d_picture decoded = UString picture
    ∧ newURL picture = Some (l_picture lineData).
Proof.
  unfold verifyAccessTokenAndGetData.
  destruct (jwtVerify _ _) as [[[iss|] [sub|] [name'|] [picture|]]|];
    try discriminate.
  cbn. destruct (decide _) as [->|]; [|discriminate].
  destruct (newURL picture) as [url|] eqn:Hurl; [|discriminate].
  intros [= <-]. by eexists _, picture.
Qed.

Lemma bind_run {A B} (m : Async A) (f : A → Async B) (w : World) :
  (m ≫= f) w
  = match m w with
    | (w', Ok a) => f a w'
    | (w', Throw e) => (w', Throw e)
    end.
Proof. reflexivity. Qed.

Lemma requestIdToken_world (code : string) (w : World) :
  requestIdToken code w = (w, (requestIdToken code w).2).
Proof. unfold requestIdToken. by destruct (postLineToken _). Qed.

Lemma createAccessTokenUrl_run (accessToken : string) (w : World) :
  createAccessTokenUrl accessToken w
  = (w,
     match newURL
             (Data.urlText Data.appHostName [] []
                [("accessToken", accessToken)]) with
     | Some url => Ok url
     | None => Throw InvalidURL
     end).
Proof.
  unfold createAccessTokenUrl, Data.urlFrom. by destruct (newURL _).
Qed.

(** The steps after the state check, one case after the other. *)
Lemma completeLogin_run (code : string) (w : World) :
  completeLogin code w
  = match (requestIdToken code w).2 with
    | Throw e => (w, Throw e)
    | Ok idToken =>
        match (verifyAccessTokenAndGetData idToken w).2 with
        | Throw e => (w, Throw e)
        | Ok lineData =>
            match head (whereEq lineUserId (l_sub lineData)
                          (user (firestore w))) with
            | None =>
                (accessToken ← createUser (l_name lineData)
                                 (l_picture lineData) (l_sub lineData);
                 url ← createAccessTokenUrl accessToken;
                 mret (Redirect url)) w
            | Some (id, _) =>
                (accessToken ← updateAccessToken id;
                 url ← createAccessTokenUrl accessToken;
                 mret (Redirect url)) w
            end
        end
    end.
Proof.
  unfold completeLogin. rewrite (bind_run (requestIdToken code)).
  destruct (requestIdToken code w).2 as [idToken|e] eqn:Hreq.
  - rewrite (requestIdToken_any_world _ _ _ Hreq w).
    rewrite (bind_run (verifyAccessTokenAndGetData idToken)).
    destruct (verifyAccessTokenAndGetData idToken w).2 as [lineData|e]
      eqn:Hver.
    + rewrite (verifyAccessTokenAndGetData_any_world idToken w w), Hver.
      rewrite (bind_run (getUserFromLineAccountId (l_sub lineData))).
      rewrite getUserFromLineAccountId_run.
      by destruct (head _) as [[id u]|].
    + by rewrite (verifyAccessTokenAndGetData_any_world idToken w w), Hver.
  - by rewrite (requestIdToken_throws _ _ _ Hreq w).
Qed.

Lemma addsNoState_completeLogin (code : string) :
  addsNoState (completeLogin code).
Proof.
  pose proof addsNoState_createUser.
  pose proof addsNoState_updateAccessToken.
  pose proof addsNoState_createAccessTokenUrl.
  pose proof addsNoState_queryUser.
  pose proof @addsNoState_ret.
  pose proof @addsNoState_throw.
  unfold completeLogin, requestIdToken, verifyAccessTokenAndGetData,
    getUserFromLineAccountId.
  repeat first
    [ progress auto
    | apply addsNoState_bind; [|intros ?]
    | match goal with
      | |- addsNoState (match ?x with _ => _ end) => destruct x
      | |- addsNoState (if ?b then _ else _) => destruct b
      end ].
Qed.

Lemma callback_state_gone (code state : string) (w : World) :
  lineLoginState
    (firestore (lineLoginCallback (UString code) (UString state) w).1)
    !! state = None.
Proof.
  rewrite lineLoginCallback_run.
  destruct (lineLoginState (firestore w) !! state) eqn:Hstate; [|exact Hstate].
  eapply lookup_weaken_None; [|apply addsNoState_completeLogin].
  cbn [firestore lineLoginState]. apply lookup_delete_eq.
Qed.

(** X16. A callback whose code and state are strings always uses the
    state up and adds none: whether the login goes through or fails at a
    later step, the state is not pending afterwards, and every state that
    is pending afterwards was pending before. *)
Theorem callback_consumes_state (code state : string) (w : World) :
  lineLoginState
    (firestore (lineLoginCallback (UString code) (UString state) w).1)
    !! state = None
  ∧ lineLoginState
      (firestore (lineLoginCallback (UString code) (UString state) w).1)
    ⊆ delete state (lineLoginState (firestore w)).
Proof.
  split; [apply callback_state_gone|].
  rewrite lineLoginCallback_run.
  destruct (lineLoginState (firestore w) !! state) eqn:Hstate.
  - apply (addsNoState_completeLogin code).
  - by rewrite delete_id.
Qed.


(** X18. The callback writes to the user collection only after all its
    checks: when a callback changes any user document, its code and state
    were strings, the state was pending, the token request had answered,
    and the id token had been verified and named LINE as its issuer. *)
Theorem callback_writes_users_only_after_checks
    (code state : Unknown) (w : World) :
  user (firestore (lineLoginCallback code state w).1) ≠ user (firestore w) →
  ∃ c s idToken lineData decoded,
    code = UString c
    ∧ state = UString s
    ∧ is_Some (lineLoginState (firestore w) !! s)
    ∧ (requestIdToken c w).2 = Ok idToken
    ∧ (verifyAccessTokenAndGetData idToken w).2 = Ok lineData
    ∧ jwtVerify idToken lineLoginChannelSecret = Some decoded
    ∧ d_iss decoded = UString "https://access.line.me"
    ∧ d_sub decoded = UString (l_sub lineData).
Proof.
  destruct code as [c|], state as [s|]; try (intros Hne; by destruct Hne).
  rewrite lineLoginCallback_run.
  destruct (lineLoginState (firestore w) !! s) as [sd|] eqn:Hstate;
    [|intros Hne; by destruct Hne].
  rewrite completeLogin_run.
  set (w1 := mkWorld _ _ _ _ _).
  destruct (requestIdToken c w1).2 as [idToken|e] eqn:Hreq;
    [|intros Hne; by destruct Hne].
  destruct (verifyAccessTokenAndGetData idToken w1).2 as [lineData|e]
    eqn:Hver; [|intros Hne; by destruct Hne].
  intros _.
  destruct (verifyAccessTokenAndGetData_ok _ _ _ Hver)
    as (decoded & picture & Hjwt & Hiss & Hsub & _).
  exists c, s, idToken, lineData, decoded.
  do 2 (split; [reflexivity|]). split; [by eexists|].
  split; [by rewrite (requestIdToken_any_world _ _ _ Hreq w)|].
  split; [|by repeat split].
  rewrite <- Hver.
  by rewrite (verifyAccessTokenAndGetData_any_world idToken w w1).
Qed.




End CallbackMore.

Lemma callback_writes_users_only_after_checks_witness :
  user (firestore
          (@lineLoginCallback Sample.platform (UString "code")
             (UString "state-1") Sample.world0).1)
  ≠ user (firestore Sample.world0)
  ∧ ∃ idToken lineData,
      (@requestIdToken Sample.platform "code" Sample.world0).2 = Ok idToken
      ∧ (@verifyAccessTokenAndGetData Sample.platform idToken
           Sample.world0).2 = Ok lineData.
Proof.
  assert (user (firestore
                  (@lineLoginCallback Sample.platform (UString "code")
                     (UString "state-1") Sample.world0).1)
          ≠ user (firestore Sample.world0)) as Hchanged.
  { intros Heq.
    assert (user (firestore
                    (@lineLoginCallback Sample.platform (UString "code")
                       (UString "state-1") Sample.world0).1)
              !! "030a11181f262d343b424950575e656c"
            = user (firestore Sample.world0)
                !! "030a11181f262d343b424950575e656c") as Hlook
      by (by rewrite Heq).
    vm_compute in Hlook. discriminate Hlook. }
  split; [exact Hchanged|].
  destruct (@callback_writes_users_only_after_checks Sample.platform
              _ _ _ Hchanged)
    as (c & s & idToken & lineData & decoded & Hc & Hs & _ & Hreq & Hver & _).
  injection Hc as <-. by exists idToken, lineData.
Defined.



(** ** File hashes, the file endpoint and the login URL *)

Section FileFacts.
Context `{Platform}.

Lemma allLowerHex_spec (value : string) :
  allLowerHex value = true ↔ lowerHexText value.
Proof.
  unfold lowerHexText. induction value as [|c value IH].
  - split; [constructor|done].
  - cbn [allLowerHex list_ascii_of_string]. rewrite Forall_cons, <- IH.
    unfold isLowerHexChar. case_bool_decide as Hc.
    + split; [by split|by intros [_ ?]].
    + split; [discriminate|by intros [? _]].
Qed.

(** X21. [parseFileHash] accepts a value exactly when it is a string of 64
    lower-case hex characters, and returns it as it is; the length is
    checked before the characters.  The hex text of any 32 bytes is
    accepted. *)
Theorem parseFileHash_accepts (value : Unknown) (hash : string) :
  (parseFileHash value = inr hash
   ↔ value = UString hash ∧ String.length hash = 64%nat ∧ lowerHexText hash)
  ∧ (String.length hash ≠ 64%nat →
     parseFileHash (UString hash) = inl HashLengthMustBe64)
  ∧ (∀ bytes, length bytes = 32%nat →
       parseFileHash (UString (JS.bytesToHex bytes))
       = inr (JS.bytesToHex bytes)).
Proof.
  assert (∀ text, String.length text = 64%nat → lowerHexText text →
            parseFileHash (UString text) = inr text) as Haccept.
  { intros text Hlen Hhex. unfold parseFileHash.
    rewrite decide_False by (by intros []).
    by rewrite (proj2 (allLowerHex_spec text) Hhex). }
  split; [split|split].
  - destruct value as [text|]; [|discriminate]. unfold parseFileHash.
    destruct (decide _) as [|Hlen]; [discriminate|].
    destruct (allLowerHex text) eqn:Hhex; [|discriminate].
    intros [= ->]. split; [reflexivity|].
    split; [by destruct (decide (String.length hash = 64%nat))|].
    by apply allLowerHex_spec.
  - intros (-> & Hlen & Hhex). by apply Haccept.
  - intros Hlen. unfold parseFileHash. by rewrite decide_True.
  - intros bytes Hlen. apply Haccept.
    + rewrite length_bytesToHex. lia.
    + apply lowerHexText_bytesToHex.
Qed.

Lemma substring_all (s : string) : substring 0 (String.length s) s = s.
Proof. induction s as [|c s IH]; [done|]. cbn. by rewrite IH. Qed.

Lemma slice_after_slash (name' : string) :
  JS.slice (String "/" name') 1 (String.length (String "/" name')) = name'.
Proof.
  unfold JS.slice. cbn [String.length Nat.sub substring].
  rewrite Nat.sub_0_r. apply substring_all.
Qed.

(** X22. A file that [saveFile] has stored is served under its hash: when
    the digest of the file is 64 lower-case hex characters, a GET request of
    the path made of a slash and the hash pipes the bytes that were saved.
    And the endpoint pipes a file only on a GET request whose path, after
    its first character, is 64 lower-case hex characters. *)
Theorem file_serves_saved_file
    (buffer : list Z) (mimeType : string) (w : World) :
  parseFileHash (UString (createHashFromBuffer buffer mimeType))
  = inr (createHashFromBuffer buffer mimeType) →
  (∃ w' hash,
     saveFile buffer mimeType w = (w', Ok hash)
     ∧ hash = createHashFromBuffer buffer mimeType
     ∧ (file "GET" (String "/" hash) w').2 = FilePipe hash (Some buffer))
  ∧ (∀ method path w0 hash content,
       (file method path w0).2 = FilePipe hash content →
       method = "GET"
       ∧ hash = JS.slice path 1 (String.length path)
       ∧ String.length hash = 64%nat
       ∧ lowerHexText hash
       ∧ content = fst <$> bucket w0 !! hash).
Proof.
  intros Hformat. split.
  - eexists _, _. split; [reflexivity|]. split; [reflexivity|].
    unfold file. rewrite decide_False by done. rewrite decide_True by done.
    cbn [snd]. rewrite slice_after_slash, Hformat.
    unfold getReadableStream. cbn [bucket]. by rewrite lookup_insert_eq.
  - clear Hformat. intros method path w0 hash content. unfold file.
    destruct (decide (method = "OPTIONS")); [discriminate|].
    destruct (decide (method = "GET")) as [->|]; [|discriminate].
    cbn [snd].
    destruct (parseFileHash _) as [e|h] eqn:Hparse; [discriminate|].
    cbn beta iota. intros [= <- <-].
    unfold parseFileHash in Hparse.
    destruct (decide _) as [|Hlen]; [discriminate|].
    destruct (allLowerHex _) eqn:Hhex; [|discriminate].
    injection Hparse as <-. split; [reflexivity|]. split; [reflexivity|].
    split; [by destruct (decide (String.length
                                   (JS.slice path 1 (String.length path))
                                 = 64%nat))|].
    split; [by apply allLowerHex_spec|reflexivity].
Qed.

(** The query text of the login URL for a hex state. *)
Lemma loginUrlText (state : string) :
  lowerHexText state →
  Data.urlText "access.line.me" ["oauth2"; "v2.1"; "authorize"]
    [("response_type", "code");
     ("client_id", Data.lineLoginClientId);
     ("redirect_uri", Data.lineLoginRedirectUri);
     ("scope", "profile openid");
     ("state", state)]
    []
  = "https://access.line.me/oauth2/v2.1/authorize?response_type=code&client_id=1653666685&redirect_uri=https%3A%2F%2Fus-central1-clavision.cloudfunctions.net%2FlineLoginCallback&scope=profile%20openid&state="
    +:+ state.
Proof.
  intros Hhex. unfold Data.urlText, Data.mapToUrlEncodeMap.
  cbn [length fmap list_fmap]. rewrite !decide_False by done.
  rewrite decide_True by done.
  rewrite string_app_nil_r, (encodeURIComponentRFC3986_hex _ Hhex).
  by vm_compute.
Qed.

(** An issued state is 32 lower-case hex characters. *)
Lemma generateAndWriteLineLoginState_format (w w1 : World) (state : string) :
  generateAndWriteLineLoginState w = (w1, Ok state) →
  String.length state = 32%nat ∧ lowerHexText state.
Proof.
  unfold generateAndWriteLineLoginState, createRandomId, now,
    createLineLoginState, randomBytes, mbind, Async_bind, mret, Async_ret.
  cbn [firestore lineLoginState].
  set (newState := JS.bytesToHex _).
  assert (String.length newState = 32%nat ∧ lowerHexText newState) as Hformat.
  { unfold newState. split; [|apply lowerHexText_bytesToHex].
    by rewrite length_bytesToHex, length_fmap, length_seq. }
  clearbody newState.
  destruct (lineLoginState (firestore w) !! newState); [discriminate|].
  by intros [= _ <-].
Qed.

(** X23. The login URL [getLineLoginUrl] returns carries a fresh state:
    the URL is built from the authorize endpoint of LINE with the client
    id, the redirect URI and the scope percent-encoded and the state as the
    last parameter; the state was not pending before and is pending
    afterwards, so that the callback that brings it back is accepted. *)
Theorem getLineLoginUrl_carries_pending_state (w w' : World) (url : string) :
  getLineLoginUrl w = (w', Ok url) →
  ∃ state,
    newURL
      ("https://access.line.me/oauth2/v2.1/authorize?response_type=code&client_id=1653666685&redirect_uri=https%3A%2F%2Fus-central1-clavision.cloudfunctions.net%2FlineLoginCallback&scope=profile%20openid&state="
       +:+ state) = Some url
    ∧ String.length state = 32%nat
    ∧ lineLoginState (firestore w) !! state = None
    ∧ is_Some (lineLoginState (firestore w') !! state)
    ∧ (checkExistsAndDeleteState state w').2 = Ok true.
Proof.
  unfold getLineLoginUrl. rewrite bind_run.
  destruct (generateAndWriteLineLoginState w) as [w1 [state|e]] eqn:Hgen;
    [|discriminate].
  pose proof (generateAndWriteLineLoginState_ok _ _ _ Hgen)
    as (Hfresh & Hstore & _).
  pose proof (generateAndWriteLineLoginState_format _ _ _ Hgen) as [Hlen Hhex].
  unfold Data.urlFrom. rewrite (loginUrlText _ Hhex).
  destruct (newURL _) as [url'|] eqn:Hurl; [|discriminate].
  intros [= <- <-]. exists state.
  split; [exact Hurl|]. split; [exact Hlen|]. split; [exact Hfresh|].
  rewrite checkExistsAndDeleteState_run, Hstore, lookup_insert_eq.
  by split.
Qed.

End FileFacts.

Lemma file_serves_saved_file_witness :
  ∃ w' hash,
    @saveFile Sample.platform Sample2.image28 "text" Sample.world0
    = (w', Ok hash)
    ∧ (file "GET" (String "/" hash) w').2
      = FilePipe hash (Some Sample2.image28).
Proof.
  destruct (@file_serves_saved_file Sample.platform Sample2.image28 "text"
              Sample.world0) as [(w' & hash & Hsave & _ & Hget) _];
    [by vm_compute|].
  by exists w', hash.
Defined.

Lemma getLineLoginUrl_carries_pending_state_witness :
  ∃ w' url state,
    @getLineLoginUrl Sample.platform Sample.world0 = (w', Ok url)
    ∧ String.length state = 32%nat
    ∧ (checkExistsAndDeleteState state w').2 = Ok true.
Proof.
  assert (∃ w' url,
            @getLineLoginUrl Sample.platform Sample.world0 = (w', Ok url))
    as (w' & url & Hrun) by (eexists _, _; by vm_compute).
  destruct (@getLineLoginUrl_carries_pending_state Sample.platform _ _ _ Hrun)
    as (state & _ & Hlen & _ & _ & Hcheck).
  by exists w', url, state.
Defined.

(** ** Rooms and classes *)

Section ReferenceFacts.

Lemma elem_of_allDocs {A} (collection : gmap string A) (id : string) (a : A) :
  (id, a) ∈ allDocs collection ↔ collection !! id = Some a.
Proof.
  unfold allDocs. rewrite merge_sort_Permutation.
  apply elem_of_map_to_list.
Qed.

Lemma NoDup_allDocs_ids {A} (collection : gmap string A) :
  NoDup (allDocs collection).*1.
Proof.
  unfold allDocs. rewrite merge_sort_Permutation.
  apply NoDup_fst_map_to_list.
Qed.

(** X24. The listings agree with the lookups: [getAllRoomData] lists
    exactly the rooms [getRoomData] finds, and [getAllClassData] exactly the
    classes [getClassData] finds, each id once; an id that is not stored
    makes the lookup throw and is not listed. *)
Theorem listings_agree_with_lookups (r : Reference) :
  (∀ id name',
     (id, name') ∈ getAllRoomData r
     ↔ getRoomData id r = inr (mkRoomData name'))
  ∧ (∀ id out,
       (id, out) ∈ getAllClassData r ↔ getClassData id r = inr out)
  ∧ NoDup (getAllRoomData r).*1
  ∧ NoDup (getAllClassData r).*1
  ∧ (∀ id, roomCollection r !! id = None →
       getRoomData id r = inl (RoomDoseNotExists id)
       ∧ id ∉ (getAllRoomData r).*1)
  ∧ (∀ id, classCollection r !! id = None →
       getClassData id r = inl (ClassDoseNotExists id)
       ∧ id ∉ (getAllClassData r).*1).
Proof.
  assert (∀ A B (f : A → B) (c : gmap string A),
            ((λ doc : string * A, (doc.1, f doc.2)) <$> allDocs c).*1
            = (allDocs c).*1) as Hids.
  { intros A B f c. rewrite <- list_fmap_compose. by apply list_fmap_ext. }
  unfold getAllRoomData, getAllClassData.
  split; [|split; [|split; [|split; [|split]]]].
  - intros id name'. rewrite list_elem_of_fmap. unfold getRoomData. split.
    + intros ([id' [n]] & [= -> ->] & Hin%elem_of_allDocs).
      cbn in Hin. by rewrite Hin.
    + destruct (roomCollection r !! id) as [[n]|] eqn:Hid; [|discriminate].
      intros [= ->]. exists (id, mkRoomData name').
      split; [reflexivity|]. by apply elem_of_allDocs.
  - intros id out. rewrite list_elem_of_fmap. unfold getClassData. split.
    + intros ([id' data] & [= -> ->] & Hin%elem_of_allDocs).
      cbn in Hin. by rewrite Hin.
    + destruct (classCollection r !! id) as [data|] eqn:Hid; [|discriminate].
      intros [= <-]. exists (id, data).
      split; [reflexivity|]. by apply elem_of_allDocs.
  - rewrite Hids. apply NoDup_allDocs_ids.
  - rewrite Hids. apply NoDup_allDocs_ids.
  - intros id Hno. unfold getRoomData. rewrite Hno. split; [reflexivity|].
    rewrite Hids. intros ([id' a] & -> & Hin%elem_of_allDocs)%list_elem_of_fmap.
    cbn in *. congruence.
  - intros id Hno. unfold getClassData. rewrite Hno. split; [reflexivity|].
    rewrite Hids. intros ([id' a] & -> & Hin%elem_of_allDocs)%list_elem_of_fmap.
    cbn in *. congruence.
Qed.

End ReferenceFacts.

(** ** Sessions that list class references *)

Section V2Facts.
Context `{Platform}.

(** Overwriting a cell of the converted grid gives the converted
    overwritten grid. *)
Lemma classOfWeekToOutType_setCell week time classId g :
  V2.setDay week
    (V2.setTime time (V2.classIdMaybeToClassOutTypeMaybe classId)
       (V2.getDay week (V2.classOfWeekToOutType g)))
    (V2.classOfWeekToOutType g)
  = V2.classOfWeekToOutType (setCell week time classId g).
Proof. by destruct week, time. Qed.

Lemma classIdMaybeToClassOutTypeMaybe_inj :
  Inj (=) (=) V2.classIdMaybeToClassOutTypeMaybe.
Proof. intros [a|] [b|] Heq; by simplify_eq/=. Qed.

Lemma classOfDayToOutType_inj : Inj (=) (=) V2.classOfDayToOutType.
Proof.
  intros [a1 a2 a3 a4 a5] [b1 b2 b3 b4 b5] Heq.
  unfold V2.classOfDayToOutType in Heq.
  cbn [c_class1 c_class2 c_class3 c_class4 c_class5] in Heq.
  f_equal; apply classIdMaybeToClassOutTypeMaybe_inj; congruence.
Qed.

Lemma classOfWeekToOutType_inj : Inj (=) (=) V2.classOfWeekToOutType.
Proof.
  intros [a1 a2 a3 a4 a5 a6] [b1 b2 b3 b4 b5 b6] Heq.
  unfold V2.classOfWeekToOutType in Heq.
  cbn [w_monday w_tuesday w_wednesday w_thursday w_friday w_saturday] in Heq.
  f_equal; apply classOfDayToOutType_inj; congruence.
Qed.

Lemma V2_verify_run (accessToken : string) (w : World) :
  V2.verifyAccessTokenAndGetUserData accessToken w
  = (w,
     match head (whereEq lastIssuedAccessTokenHash
                   (hashAccessToken accessToken) (user (firestore w))) with
     | None => Throw InvalidAccessToken
     | Some (id, data) =>
         Ok (V2.mkUserOut id (name data) (imageFileHash data)
               (V2.classOfWeekToOutType (classInTimeTable data)))
     end).
Proof.
  unfold V2.verifyAccessTokenAndGetUserData, queryUser, mbind, Async_bind.
  destruct (head _) as [[id data]|]; reflexivity.
Qed.

(** X25. In the version whose sessions list class references, the
    conversion of a timetable loses nothing, and the snapshot [setClass]
    builds by overwriting one cell of the converted timetable is the
    conversion of the timetable it stores: the call writes the same world as
    the earlier [setClass], and [getUser] afterwards returns the name, the
    timetable and the image hash of the snapshot. *)
Theorem V2_setClass_snapshot_is_stored
    (accessToken : string) (week : Week) (time : Time)
    (classId : option string) (w : World) (session : V2.UserOutType) :
  (V2.verifyAccessTokenAndGetUserData accessToken w).2 = Ok session →
  Inj (=) (=) V2.classOfWeekToOutType
  ∧ ∃ w' out,
      V2.setClass accessToken week time classId w = (w', Ok out)
      ∧ (setClass accessToken week time classId w).1 = w'
      ∧ V2.o_id out = V2.o_id session
      ∧ V2.getTime time (V2.getDay week (V2.o_classInTimeTable out))
        = V2.classIdMaybeToClassOutTypeMaybe classId
      ∧ V2.getUser (V2.o_id out) w'
        = (w', Ok (V2.o_name out, V2.o_classInTimeTable out,
                   V2.o_imageFileHash out)).
Proof.
  intros Hok. split; [apply classOfWeekToOutType_inj|].
  rewrite V2_verify_run in Hok. cbn [snd] in Hok.
  destruct (head _) as [[id u]|] eqn:Hhd; [|discriminate].
  injection Hok as <-.
  pose proof (head_whereEq _ _ _ _ _ Hhd) as [Hu _].
  eexists _, _. split.
  { unfold V2.setClass. rewrite bind_run, V2_verify_run, Hhd.
    cbn [V2.o_id]. rewrite bind_run.
    unfold mergeUserClass. rewrite Hu.
    cbn [V2.o_classInTimeTable V2.o_name V2.o_imageFileHash].
    rewrite classOfWeekToOutType_setCell. reflexivity. }
  split; [by rewrite (setClass_run _ _ _ _ _ _ _ Hhd)|].
  split; [reflexivity|].
  cbn [V2.o_id V2.o_name V2.o_classInTimeTable V2.o_imageFileHash].
  split; [by destruct week, time|].
  unfold V2.getUser, getUserDoc. rewrite bind_run.
  cbn [firestore user]. by rewrite lookup_insert_eq.
Qed.

End V2Facts.

Lemma V2_setClass_snapshot_is_stored_witness :
  ∃ w' out,
    @V2.setClass Sample.platform Sample.tokenA monday class3
      (Some "class-logic") Sample.world0 = (w', Ok out)
    ∧ V2.getTime class3 (V2.getDay monday (V2.o_classInTimeTable out))
      = Some (V2.mkClassRef "class-logic").
Proof.
  destruct (@V2_setClass_snapshot_is_stored Sample.platform Sample.tokenA
              monday class3 (Some "class-logic") Sample.world0
              (V2.mkUserOut "user-alice" "Alice" "hash-of-alice-image"
                 (V2.classOfWeekToOutType Sample.grid0)))
    as [_ (w' & out & Hrun & _ & _ & Hcell & _)]; [by vm_compute|].
  exists w', out. split; [exact Hrun|exact Hcell].
Defined.

(** ** One user for each LINE id *)

Section LineIdFacts.
Context `{Platform}.

(** The three ways of [keepsLineIds] keep LINE ids unique. *)
Lemma uniqueLineIds_step (w w' : World) :
  keepsLineIds (user (firestore w)) (user (firestore w')) →
  uniqueLineIds w → uniqueLineIds w'.
Proof.
  intros [Hsame|[(id & u & u' & Hu & Hline & Hupd)|(id & u & Hfresh & Hnew & Hins)]]
    Huniq id1 id2 u1 u2.
  - rewrite Hsame. apply Huniq.
  - rewrite Hupd. intros H1 H2 Heq.
    destruct (decide (id1 = id)) as [->|Hne1];
      destruct (decide (id2 = id)) as [->|Hne2]; [done|..].
    + rewrite lookup_insert_eq in H1. rewrite lookup_insert_ne in H2 by done.
      injection H1 as <-. symmetry. apply (Huniq id2 id u2 u); [done..|].
      congruence.
    + rewrite lookup_insert_ne in H1 by done. rewrite lookup_insert_eq in H2.
      injection H2 as <-. apply (Huniq id1 id u1 u); [done..|]. congruence.
    + rewrite lookup_insert_ne in H1, H2 by done. by apply (Huniq id1 id2 u1 u2).
  - rewrite Hins. intros H1 H2 Heq.
    destruct (decide (id1 = id)) as [->|Hne1];
      destruct (decide (id2 = id)) as [->|Hne2]; [done|..].
    + rewrite lookup_insert_eq in H1. rewrite lookup_insert_ne in H2 by done.
      injection H1 as <-. by destruct (Hnew id2 u2).
    + rewrite lookup_insert_ne in H1 by done. rewrite lookup_insert_eq in H2.
      injection H2 as <-. by destruct (Hnew id1 u1).
    + rewrite lookup_insert_ne in H1, H2 by done. by apply (Huniq id1 id2 u1 u2).
Qed.

(** What the callback does to the user collection. *)
Lemma lineLoginCallback_keepsLineIds (code state : Unknown) (w : World) :
  keepsLineIds (user (firestore w))
    (user (firestore (lineLoginCallback code state w).1)).
Proof.
  destruct code as [c|], state as [s|]; try by left.
  rewrite lineLoginCallback_run.
  destruct (lineLoginState (firestore w) !! s) as [sd|]; [|by left].
  rewrite completeLogin_run.
  set (w1 := mkWorld _ _ _ _ _).
  destruct (requestIdToken c w1).2 as [idToken|e]; [|by left].
  destruct (verifyAccessTokenAndGetData idToken w1).2 as [lineData|e];
    [|by left].
  destruct (head _) as [[id u]|] eqn:Hfind.
  - pose proof (head_whereEq _ _ _ _ _ Hfind) as [Hu _].
    destruct (updateAccessToken_run id u w1 Hu) as [accessToken Hrun].
    rewrite (bind_run (updateAccessToken id)), Hrun.
    rewrite (bind_run (createAccessTokenUrl accessToken)).
    rewrite createAccessTokenUrl_run.
    right. left. exists id, u, (withTokenHash (hashAccessToken accessToken) u).
    split; [exact Hu|]. split; [reflexivity|].
    by destruct (newURL _).
  - apply head_None in Hfind.
    pose proof (proj1 (whereEq_nil _ _ _) Hfind) as Hnone.
    rewrite (bind_run (createUser _ _ _)), createUser_run. cbv zeta.
    set (newId := JS.bytesToHex (_ <$> seq 0 16)).
    set (newToken := JS.bytesToHex (_ <$> seq 0 24)).
    clearbody newId newToken.
    destruct (fetchImage (l_picture lineData)) as [[data mimeType]|];
      [|by left].
    destruct (user (firestore w1) !! newId) eqn:Hfresh; [by left|].
    rewrite (bind_run (createAccessTokenUrl newToken)).
    rewrite createAccessTokenUrl_run.
    right. right.
    match goal with
    | |- context [<[newId := ?x]> _] => exists newId, x
    end.
    split; [exact Hfresh|]. split; [exact Hnone|].
    by destruct (newURL _).
Qed.

Lemma runCall_keepsLineIds (c : Call) (w : World) :
  isCreateUser c = false →
  keepsLineIds (user (firestore w)) (user (firestore (runCall c w).1)).
Proof.
  intros Hc. destruct c; try discriminate Hc; cbn [runCall].
  - destruct (generateAndWriteLineLoginState w) as [w1 [s|e]] eqn:Hgen;
      cbn [fst]; left.
    + by apply generateAndWriteLineLoginState_ok in Hgen as (_ & _ & ->).
    + by apply generateAndWriteLineLoginState_throw in Hgen as ->.
  - left. rewrite checkExistsAndDeleteState_run.
    by destruct (lineLoginState (firestore w) !! state).
  - destruct (user (firestore w) !! userId) as [u|] eqn:Hu.
    + destruct (updateAccessToken_run userId u w Hu) as [accessToken ->].
      right. left.
      by exists userId, u, (withTokenHash (hashAccessToken accessToken) u).
    + left. unfold updateAccessToken, createAccessToken, updateUserTokenHash,
        randomBytes, mbind, Async_bind, mret, Async_ret.
      cbn [firestore user]. by rewrite Hu.
  - destruct (head (whereEq lastIssuedAccessTokenHash
                      (hashAccessToken accessToken) (user (firestore w))))
      as [[id u]|] eqn:Hhd.
    + pose proof (head_whereEq _ _ _ _ _ Hhd) as [Hu _].
      rewrite (setClass_run _ _ _ _ _ _ _ Hhd).
      right. left. by exists id, u, (withCell week time classId u).
    + left. unfold setClass. rewrite bind_run, verify_run, Hhd. reflexivity.
  - apply lineLoginCallback_keepsLineIds.
Qed.

(** X26. The callback never gives a LINE id a second user: when no two
    user documents have the same LINE id, the same holds after any sequence
    of calls in which [createUser] is called by the callback only. *)
Theorem line_ids_stay_unique (calls : list Call) (w : World) :
  Forall (λ c, isCreateUser c = false) calls →
  uniqueLineIds w →
  uniqueLineIds (runCalls calls w).1.
Proof.
  revert w. induction calls as [|c calls IH]; intros w Hcalls Huniq;
    [exact Huniq|].
  apply Forall_cons in Hcalls as [Hc Hcalls]. cbn [runCalls].
  pose proof (uniqueLineIds_step w (runCall c w).1
                (runCall_keepsLineIds c w Hc) Huniq) as Hstep.
  destruct (runCall c w) as [w1 issued]. cbn [fst] in Hstep.
  specialize (IH w1 Hcalls Hstep).
  by destruct (runCalls calls w1) as [w2 more].
Qed.

End LineIdFacts.

Lemma sample_uniqueLineIds : uniqueLineIds Sample.world0.
Proof.
  intros id1 id2 u1 u2 [[-> ->]|[-> ->]]%sample_users
    [[-> ->]|[-> ->]]%sample_users; by vm_compute.
Qed.

Lemma line_ids_stay_unique_witness :
  uniqueLineIds
    (@runCalls Sample.platform
       [CallLoginCallback (UString "code") (UString "state-1");
        CallUpdateAccessToken "user-alice"]
       Sample.world0).1.
Proof.
  apply (@line_ids_stay_unique Sample.platform).
  - repeat constructor.
  - exact sample_uniqueLineIds.
Defined.

(** The listings on a sample of reference data. *)
Lemma listings_on_sample :
  getAllRoomData Sample2.reference0 = [("room-1", "2603"); ("room-2", "2601")]
  ∧ (getAllClassData Sample2.reference0).*1 = ["class-a"; "class-b"]
  ∧ getClassData "class-c" Sample2.reference0
    = inl (ClassDoseNotExists "class-c").
Proof. repeat split; by vm_compute. Qed.
